(** * avvideocompare: a shallow embedding of gstavvidcmp.c

    The element compares two video streams through a libav filter graph and
    passes the first stream through.  The embedding keeps the element's
    instance structure, the two sink pads, the buffers the frames live in and
    a log of the debug messages in one explicit state; everything the file
    calls in libav, GLib and the GStreamer base classes is an interface
    (class [Externals]) whose answers may depend on a state of their own. *)

From Stdlib Require Import ZArith List Lia.
From stdpp Require Import gmap strings list.

Local Open Scope string_scope.
Local Open Scope list_scope.
Local Open Scope Z_scope.

(** ** Enumerations and plain data *)

(** [GstFFMpegVidCmpMethod]: a C enum, stored as the integer it is. *)
Definition GST_FFMPEGVIDCMP_METHOD_SSIM : Z := 0.
Definition GST_FFMPEGVIDCMP_METHOD_PSNR : Z := 1.

Record GEnumValue := {
  value : Z;
  value_name : string;
  value_nick : string
}.

(** The table registered by [gst_ffmpegvidcmp_method_get_type] (the
    terminating all-zero entry is the end of the list). *)
Definition enum_values : list GEnumValue :=
  [ {| value := GST_FFMPEGVIDCMP_METHOD_SSIM; value_name := "SSIM"; value_nick := "ssim" |};
    {| value := GST_FFMPEGVIDCMP_METHOD_PSNR; value_name := "PSNR"; value_nick := "psnr" |} ].

(** [g_enum_get_value]: the entry of the class with that value, or NULL. *)
Definition g_enum_get_value (vals : list GEnumValue) (v : Z) : option GEnumValue :=
  find (fun e => value e =? v) vals.

Definition DEFAULT_STATS_FILE : string := "-".
Definition DEFAULT_VIDCMP_METHOD : Z := GST_FFMPEGVIDCMP_METHOD_SSIM.

(** Property ids. *)
Definition PROP_0 : nat := 0.
Definition PROP_STATS_FILE : nat := 1.
Definition PROP_VIDCMP_METHOD : nat := 2.

(** A [GValue] as the two property types use it. *)
Inductive GValue :=
| GValueString (s : option string)
| GValueEnum (v : Z).

Definition g_value_get_string (v : GValue) : option string :=
  match v with GValueString s => s | GValueEnum _ => None end.

Definition g_value_get_enum (v : GValue) : Z :=
  match v with GValueEnum e => e | GValueString _ => 0 end.

(** GStreamer's raw video formats: the ones the pad templates name, the two
    special values, and every other format of the library by its number. *)
Inductive GstVideoFormat :=
| GST_VIDEO_FORMAT_UNKNOWN
| GST_VIDEO_FORMAT_ENCODED
| GST_VIDEO_FORMAT_ARGB
| GST_VIDEO_FORMAT_BGRA
| GST_VIDEO_FORMAT_ABGR
| GST_VIDEO_FORMAT_RGBA
| GST_VIDEO_FORMAT_xRGB
| GST_VIDEO_FORMAT_BGRx
| GST_VIDEO_FORMAT_xBGR
| GST_VIDEO_FORMAT_RGBx
| GST_VIDEO_FORMAT_RGB16
| GST_VIDEO_FORMAT_GRAY8
| GST_VIDEO_FORMAT_NV12
| GST_VIDEO_FORMAT_NV21
| GST_VIDEO_FORMAT_YUY2
| GST_VIDEO_FORMAT_UYVY
| GST_VIDEO_FORMAT_I420
| GST_VIDEO_FORMAT_Y42B
| GST_VIDEO_FORMAT_Y444
| GST_VIDEO_FORMAT_other (n : nat).

Global Instance GstVideoFormat_eq_dec : EqDecision GstVideoFormat.
Proof. solve_decision. Defined.

(** [GST_FFMPEGVIDCMP_FORMATS], in the order of the macro. *)
Definition GST_FFMPEGVIDCMP_FORMATS : list GstVideoFormat :=
  [ GST_VIDEO_FORMAT_ARGB; GST_VIDEO_FORMAT_BGRA; GST_VIDEO_FORMAT_ABGR;
    GST_VIDEO_FORMAT_RGBA; GST_VIDEO_FORMAT_xRGB; GST_VIDEO_FORMAT_BGRx;
    GST_VIDEO_FORMAT_xBGR; GST_VIDEO_FORMAT_RGBx; GST_VIDEO_FORMAT_RGB16;
    GST_VIDEO_FORMAT_GRAY8; GST_VIDEO_FORMAT_NV12; GST_VIDEO_FORMAT_NV21;
    GST_VIDEO_FORMAT_YUY2; GST_VIDEO_FORMAT_UYVY; GST_VIDEO_FORMAT_I420;
    GST_VIDEO_FORMAT_Y42B; GST_VIDEO_FORMAT_Y444 ].

(** libav's pixel formats, as far as the element can meet them. *)
Inductive AVPixelFormat :=
| AV_PIX_FMT_NONE
| AV_PIX_FMT_ARGB
| AV_PIX_FMT_BGRA
| AV_PIX_FMT_ABGR
| AV_PIX_FMT_RGBA
| AV_PIX_FMT_0RGB
| AV_PIX_FMT_BGR0
| AV_PIX_FMT_0BGR
| AV_PIX_FMT_RGB0
| AV_PIX_FMT_RGB565
| AV_PIX_FMT_GRAY8
| AV_PIX_FMT_NV12
| AV_PIX_FMT_NV21
| AV_PIX_FMT_YUYV422
| AV_PIX_FMT_UYVY422
| AV_PIX_FMT_YUV420P
| AV_PIX_FMT_YUV422P
| AV_PIX_FMT_YUV444P.

Global Instance AVPixelFormat_eq_dec : EqDecision AVPixelFormat.
Proof. solve_decision. Defined.

(** Modelled from the spec: [gst_ffmpeg_videoformat_to_pixfmt] lives in
    gstavcodecmap.c, which is not part of the sources at hand.  The spec fixes
    the closed set of pixel formats and makes every format outside it
    [FormatUnsupported] during configuration; the code signals that case by
    [AV_PIX_FMT_NONE].  So the seventeen formats map to their libav
    counterpart and everything else to [AV_PIX_FMT_NONE]. *)
Definition gst_ffmpeg_videoformat_to_pixfmt (f : GstVideoFormat) : AVPixelFormat :=
  match f with
  | GST_VIDEO_FORMAT_ARGB => AV_PIX_FMT_ARGB
  | GST_VIDEO_FORMAT_BGRA => AV_PIX_FMT_BGRA
  | GST_VIDEO_FORMAT_ABGR => AV_PIX_FMT_ABGR
  | GST_VIDEO_FORMAT_RGBA => AV_PIX_FMT_RGBA
  | GST_VIDEO_FORMAT_xRGB => AV_PIX_FMT_0RGB
  | GST_VIDEO_FORMAT_BGRx => AV_PIX_FMT_BGR0
  | GST_VIDEO_FORMAT_xBGR => AV_PIX_FMT_0BGR
  | GST_VIDEO_FORMAT_RGBx => AV_PIX_FMT_RGB0
  | GST_VIDEO_FORMAT_RGB16 => AV_PIX_FMT_RGB565
  | GST_VIDEO_FORMAT_GRAY8 => AV_PIX_FMT_GRAY8
  | GST_VIDEO_FORMAT_NV12 => AV_PIX_FMT_NV12
  | GST_VIDEO_FORMAT_NV21 => AV_PIX_FMT_NV21
  | GST_VIDEO_FORMAT_YUY2 => AV_PIX_FMT_YUYV422
  | GST_VIDEO_FORMAT_UYVY => AV_PIX_FMT_UYVY422
  | GST_VIDEO_FORMAT_I420 => AV_PIX_FMT_YUV420P
  | GST_VIDEO_FORMAT_Y42B => AV_PIX_FMT_YUV422P
  | GST_VIDEO_FORMAT_Y444 => AV_PIX_FMT_YUV444P
  | GST_VIDEO_FORMAT_UNKNOWN | GST_VIDEO_FORMAT_ENCODED
  | GST_VIDEO_FORMAT_other _ => AV_PIX_FMT_NONE
  end.

(** [GstVideoInfo]: what the element reads of it. *)
Record GstVideoInfo := {
  vi_format : GstVideoFormat;
  vi_width : Z;
  vi_height : Z;
  vi_fps_n : Z;
  vi_fps_d : Z
}.

(** [gst_video_info_init]: format unknown, everything else cleared, 0/1 fps. *)
Definition gst_video_info_init : GstVideoInfo :=
  {| vi_format := GST_VIDEO_FORMAT_UNKNOWN; vi_width := 0; vi_height := 0;
     vi_fps_n := 0; vi_fps_d := 1 |}.

(** ** Buffers and frames *)

(** A buffer: its timestamps and the bytes of each plane. *)
Record GstBuffer := {
  pts : Z;
  duration : Z;
  planes : list (list Byte.byte)
}.

(** A pointer into a buffer's memory. *)
Record DataPtr := {
  ptr_buffer : nat;
  ptr_plane : nat;
  ptr_offset : Z
}.

(** A mapped [GstVideoFrame]: its info, the buffer it maps, and for each of
    its components the data pointer and the stride. *)
Record GstVideoFrame := {
  vf_info : GstVideoInfo;
  vf_buffer : nat;
  vf_comp : list (DataPtr * Z)
}.

Definition GST_VIDEO_FRAME_N_COMPONENTS (f : GstVideoFrame) : nat := length (vf_comp f).
Definition GST_VIDEO_FRAME_COMP_DATA (f : GstVideoFrame) (i : nat) : option DataPtr :=
  fst <$> vf_comp f !! i.
Definition GST_VIDEO_FRAME_COMP_STRIDE (f : GstVideoFrame) (i : nat) : Z :=
  default 0 (snd <$> vf_comp f !! i).
Definition GST_VIDEO_FRAME_WIDTH (f : GstVideoFrame) : Z := vi_width (vf_info f).
Definition GST_VIDEO_FRAME_HEIGHT (f : GstVideoFrame) : Z := vi_height (vf_info f).

Definition AV_NUM_DATA_POINTERS : nat := 8.

Record AVFrame := {
  av_data : list (option DataPtr);
  av_linesize : list Z;
  av_width : Z;
  av_height : Z;
  av_format : option AVPixelFormat
}.

(** [AVFrame f = { 0, }]. *)
Definition AVFrame_zero : AVFrame :=
  {| av_data := replicate AV_NUM_DATA_POINTERS None;
     av_linesize := replicate AV_NUM_DATA_POINTERS 0;
     av_width := 0; av_height := 0; av_format := None |}.

(** A video aggregator sink pad: negotiated info, the frame prepared for the
    current output (NULL when there is none), and the end-of-stream flag the
    base class keeps. *)
Record GstVideoAggregatorPad := {
  pad_info : GstVideoInfo;
  prepared_frame : option GstVideoFrame;
  pad_eos : bool
}.

Definition gst_video_aggregator_pad_get_prepared_frame
    (pad : GstVideoAggregatorPad) : option GstVideoFrame :=
  prepared_frame pad.

Inductive GstFlowReturn :=
| GST_FLOW_OK
| GST_FLOW_EOS
| GST_FLOW_ERROR
| GST_AGGREGATOR_FLOW_NEED_DATA.

Inductive GstMapFlags := GST_MAP_READ | GST_MAP_WRITE.

Inductive GstDebugLevel := GST_LEVEL_ERROR | GST_LEVEL_WARNING | GST_LEVEL_INFO.

Inductive printf_arg :=
| ArgInt (z : Z)
| ArgPixFmt (p : AVPixelFormat)
| ArgStr (s : option string).

(** ** The element's instance structure *)

Definition AVFilterGraph := nat.
Definition AVFilterContext := nat.

Record GstFFMpegVidCmp := {
  width : Z;
  height : Z;
  fps_num : Z;
  fps_denom : Z;
  filter_graph : option AVFilterGraph;
  in1_ctx : option AVFilterContext;
  in2_ctx : option AVFilterContext;
  out_ctx : option AVFilterContext;
  pixfmt : AVPixelFormat;
  method : Z;
  stats_file : option string
}.

Inductive GstEvent (Caps : Type) :=
| GST_EVENT_CAPS (caps : Caps)
| GST_EVENT_other (type : nat).
Arguments GST_EVENT_CAPS {Caps} caps.
Arguments GST_EVENT_other {Caps} type.

(** ** What the element calls and does not define

    GLib, the GStreamer video library, the aggregator base classes and libav.
    [ExtState] is whatever state these keep (allocator, filter graphs, the
    statistics file); each call may read and change it.  libav reads the
    frames it is given through the buffer store and does not write to it. *)
Class Externals := {
  GstCaps : Type;
  ExtState : Type;
  (* GStreamer video library *)
  gst_video_info_from_caps : GstCaps -> option GstVideoInfo;
  gst_video_info_to_caps : GstVideoInfo -> GstCaps;
  gst_video_frame_map : GstVideoInfo -> GstBuffer -> GstMapFlags -> option (list (DataPtr * Z));
  (* parent class (GstVideoAggregator / GstAggregator) *)
  parent_sink_event : GstEvent GstCaps -> ExtState -> bool * ExtState;
  (* update_caps is given the aggregator: its two sink pads and its output
     info are what it can read of it *)
  parent_update_caps :
    GstVideoAggregatorPad -> GstVideoAggregatorPad -> GstVideoInfo ->
    GstCaps -> ExtState -> option GstCaps * ExtState;
  (* GLib *)
  g_vasprintf : string -> list printf_arg -> ExtState -> (Z * string) * ExtState;
  (* libavfilter *)
  avfilter_graph_alloc : ExtState -> option AVFilterGraph * ExtState;
  avfilter_graph_parse2 : AVFilterGraph -> string -> ExtState -> (Z * bool * bool) * ExtState;
  avfilter_graph_config : AVFilterGraph -> ExtState -> Z * ExtState;
  avfilter_graph_get_filter : AVFilterGraph -> string -> ExtState -> option AVFilterContext;
  avfilter_graph_free : AVFilterGraph -> ExtState -> ExtState;
  av_buffersrc_add_frame :
    option AVFilterContext -> AVFrame -> gmap nat GstBuffer -> ExtState -> Z * ExtState;
  av_buffersink_get_frame : option AVFilterContext -> AVFrame -> ExtState -> Z * ExtState
}.

Section Element.
Context `{Ext : Externals}.

(** ** The state the element's functions run in *)

Record World := {
  self : GstFFMpegVidCmp;
  sinkpad1 : GstVideoAggregatorPad;
  sinkpad2 : GstVideoAggregatorPad;
  vagg_info : GstVideoInfo;            (* vagg->info, the output format *)
  heap : gmap nat GstBuffer;           (* the buffers, by address *)
  ext : ExtState;
  log : list (GstDebugLevel * string)
}.

Definition set_self (s : GstFFMpegVidCmp) (w : World) : World :=
  {| self := s; sinkpad1 := sinkpad1 w; sinkpad2 := sinkpad2 w;
     vagg_info := vagg_info w; heap := heap w; ext := ext w; log := log w |}.
Definition set_heap (h : gmap nat GstBuffer) (w : World) : World :=
  {| self := self w; sinkpad1 := sinkpad1 w; sinkpad2 := sinkpad2 w;
     vagg_info := vagg_info w; heap := h; ext := ext w; log := log w |}.
Definition set_ext (e : ExtState) (w : World) : World :=
  {| self := self w; sinkpad1 := sinkpad1 w; sinkpad2 := sinkpad2 w;
     vagg_info := vagg_info w; heap := heap w; ext := e; log := log w |}.
Definition set_sinkpad2 (p : GstVideoAggregatorPad) (w : World) : World :=
  {| self := self w; sinkpad1 := sinkpad1 w; sinkpad2 := p;
     vagg_info := vagg_info w; heap := heap w; ext := ext w; log := log w |}.
Definition set_log (l : list (GstDebugLevel * string)) (w : World) : World :=
  {| self := self w; sinkpad1 := sinkpad1 w; sinkpad2 := sinkpad2 w;
     vagg_info := vagg_info w; heap := heap w; ext := ext w; log := l |}.

(** A small state monad over [World]. *)
Definition M (A : Type) : Type := World -> A * World.
Definition ret {A} (a : A) : M A := fun w => (a, w).
Definition bind {A B} (m : M A) (k : A -> M B) : M B :=
  fun w => let (a, w') := m w in k a w'.

Notation "x <- m ;; k" := (bind m (fun x => k))
  (at level 100, m at next level, right associativity).
Notation "m ;;; k" := (bind m (fun _ => k))
  (at level 100, right associativity).

Definition get_self : M GstFFMpegVidCmp := fun w => (self w, w).
Definition modify_self (f : GstFFMpegVidCmp -> GstFFMpegVidCmp) : M unit :=
  fun w => (tt, set_self (f (self w)) w).
(** A call into the outside that returns a value and moves its state on. *)
Definition call {A} (f : ExtState -> A * ExtState) : M A :=
  fun w => let (a, e) := f (ext w) in (a, set_ext e w).
(** The same for a call that only reads. *)
Definition ask {A} (f : ExtState -> A) : M A := fun w => (f (ext w), w).

Definition gst_debug (lvl : GstDebugLevel) (msg : string) : M unit :=
  fun w => (tt, set_log (log w ++ [(lvl, msg)]) w).
Definition GST_ERROR_OBJECT := gst_debug GST_LEVEL_ERROR.
Definition GST_WARNING_OBJECT := gst_debug GST_LEVEL_WARNING.
Definition GST_INFO_OBJECT := gst_debug GST_LEVEL_INFO.

(** Field assignments. *)
Definition with_geometry (w h n d : Z) (s : GstFFMpegVidCmp) : GstFFMpegVidCmp :=
  {| width := w; height := h; fps_num := n; fps_denom := d;
     filter_graph := filter_graph s; in1_ctx := in1_ctx s; in2_ctx := in2_ctx s;
     out_ctx := out_ctx s; pixfmt := pixfmt s; method := method s;
     stats_file := stats_file s |}.
Definition with_pixfmt (p : AVPixelFormat) (s : GstFFMpegVidCmp) : GstFFMpegVidCmp :=
  {| width := width s; height := height s; fps_num := fps_num s; fps_denom := fps_denom s;
     filter_graph := filter_graph s; in1_ctx := in1_ctx s; in2_ctx := in2_ctx s;
     out_ctx := out_ctx s; pixfmt := p; method := method s;
     stats_file := stats_file s |}.
Definition with_filter_graph (g : option AVFilterGraph) (s : GstFFMpegVidCmp) : GstFFMpegVidCmp :=
  {| width := width s; height := height s; fps_num := fps_num s; fps_denom := fps_denom s;
     filter_graph := g; in1_ctx := in1_ctx s; in2_ctx := in2_ctx s;
     out_ctx := out_ctx s; pixfmt := pixfmt s; method := method s;
     stats_file := stats_file s |}.
Definition with_ctxs (i1 i2 o : option AVFilterContext) (s : GstFFMpegVidCmp) : GstFFMpegVidCmp :=
  {| width := width s; height := height s; fps_num := fps_num s; fps_denom := fps_denom s;
     filter_graph := filter_graph s; in1_ctx := i1; in2_ctx := i2;
     out_ctx := o; pixfmt := pixfmt s; method := method s;
     stats_file := stats_file s |}.
Definition with_method (m : Z) (s : GstFFMpegVidCmp) : GstFFMpegVidCmp :=
  {| width := width s; height := height s; fps_num := fps_num s; fps_denom := fps_denom s;
     filter_graph := filter_graph s; in1_ctx := in1_ctx s; in2_ctx := in2_ctx s;
     out_ctx := out_ctx s; pixfmt := pixfmt s; method := m;
     stats_file := stats_file s |}.
Definition with_stats_file (f : option string) (s : GstFFMpegVidCmp) : GstFFMpegVidCmp :=
  {| width := width s; height := height s; fps_num := fps_num s; fps_denom := fps_denom s;
     filter_graph := filter_graph s; in1_ctx := in1_ctx s; in2_ctx := in2_ctx s;
     out_ctx := out_ctx s; pixfmt := pixfmt s; method := method s;
     stats_file := f |}.

(** ** gst_ffmpegvidcmp_reset *)
Definition gst_ffmpegvidcmp_reset : M unit :=
  modify_self (with_geometry (-1) (-1) 0 1) ;;;
  modify_self (with_pixfmt AV_PIX_FMT_NONE) ;;;
  modify_self (with_ctxs None None None) ;;;
  s <- get_self ;;
  match filter_graph s with
  | Some g =>
      (* avfilter_graph_free (&self->filter_graph) also clears the pointer *)
      call (fun e => (tt, avfilter_graph_free g e)) ;;;
      modify_self (with_filter_graph None)
  | None => ret tt
  end.

(** ** gst_ffmpegvidcmp_setcaps *)
Definition gst_ffmpegvidcmp_setcaps (caps : GstCaps) : M bool :=
  match gst_video_info_from_caps caps with
  | None => ret false
  | Some vinfo =>
      modify_self (with_geometry (vi_width vinfo) (vi_height vinfo)
                                 (vi_fps_n vinfo) (vi_fps_d vinfo)) ;;;
      modify_self (with_pixfmt (gst_ffmpeg_videoformat_to_pixfmt (vi_format vinfo))) ;;;
      s <- get_self ;;
      if decide (pixfmt s = AV_PIX_FMT_NONE) then
        GST_ERROR_OBJECT "failed to find suitable ffmpeg pixfmt" ;;;
        ret false
      else
        ret true
  end.

(** ** gst_ffmpegvidcmp_sink_event *)
Definition gst_ffmpegvidcmp_sink_event (event : GstEvent GstCaps) : M bool :=
  match event with
  | GST_EVENT_CAPS caps =>
      ok <- gst_ffmpegvidcmp_setcaps caps ;;
      if negb ok then ret false            (* the event is dropped *)
      else call (parent_sink_event event)
  | GST_EVENT_other _ => call (parent_sink_event event)
  end.

(** ** _make_str and init_filter_graph *)
Definition _make_str (format : string) (args : list printf_arg) : M (Z * string) :=
  call (g_vasprintf format args).

Definition filter_graph_description : string :=
  ("buffer=video_size=%dx%d:pix_fmt=%d:time_base=1/1:pixel_aspect=0/1[in1];" ++
   "buffer=video_size=%dx%d:pix_fmt=%d:time_base=1/1:pixel_aspect=0/1[in2];" ++
   "[in1][in2]%s=f=\'%s\'[out];[out]buffersink")%string.

Definition show_str (s : option string) : string := default "(null)" s.

Definition init_filter_graph : M Z :=
  s <- get_self ;;
  match g_enum_get_value enum_values (method s) with
  | None =>
      GST_ERROR_OBJECT "unknown compare method" ;;;
      ret (-1)
  | Some m =>
      GST_INFO_OBJECT ("    method : " ++ value_nick m)%string ;;;
      GST_INFO_OBJECT ("stats-file : " ++ show_str (stats_file s))%string ;;;
      r <- _make_str filter_graph_description
             [ ArgInt (width s); ArgInt (height s); ArgPixFmt (pixfmt s);
               ArgInt (width s); ArgInt (height s); ArgPixFmt (pixfmt s);
               ArgStr (Some (value_nick m)); ArgStr (stats_file s) ] ;;
      let (res, args) := r in
      if res <? 0 then
        GST_ERROR_OBJECT "failed to format filter graph arguments" ;;;
        ret res
      else
        g <- call avfilter_graph_alloc ;;
        modify_self (with_filter_graph g) ;;;
        match g with
        | None =>
            GST_ERROR_OBJECT "failed to allocate filter graph" ;;;
            ret (-1)
        | Some g =>
            p <- call (avfilter_graph_parse2 g args) ;;
            let '(res, inputs, outputs) := p in
            if res <? 0 then
              GST_ERROR_OBJECT "failed to parse filter graph" ;;;
              ret res
            else if inputs || outputs then
              GST_ERROR_OBJECT "unlinked inputs/outputs in filter graph" ;;;
              ret (-1)
            else
              res <- call (avfilter_graph_config g) ;;
              if res <? 0 then
                GST_ERROR_OBJECT "failed to configure filter graph" ;;;
                ret res
              else
                i1 <- ask (avfilter_graph_get_filter g "Parsed_buffer_0") ;;
                i2 <- ask (avfilter_graph_get_filter g "Parsed_buffer_1") ;;
                o <- ask (avfilter_graph_get_filter g "Parsed_buffersink_3") ;;
                modify_self (with_ctxs i1 i2 o) ;;;
                match i1, i2, o with
                | Some _, Some _, Some _ => ret res
                | _, _, _ =>
                    GST_ERROR_OBJECT "failed to get filter contexts" ;;;
                    ret (-1)
                end
        end
  end.

(** ** process_filter_graph *)

(** The part after the graph is known to exist: feed both frames, pull the
    result.  [out] is a fresh frame with the negotiated size and format; it
    is released again whatever the result. *)
Definition run_filter_graph (in1 in2 : AVFrame) : M Z :=
  s <- get_self ;;
  h <- (fun w => (heap w, w)) ;;
  res <- call (av_buffersrc_add_frame (in1_ctx s) in1 h) ;;
  if res <? 0 then ret res
  else
    res <- call (av_buffersrc_add_frame (in2_ctx s) in2 h) ;;
    if res <? 0 then ret res
    else
      let out := {| av_data := av_data AVFrame_zero; av_linesize := av_linesize AVFrame_zero;
                    av_width := width s; av_height := height s;
                    av_format := Some (pixfmt s) |} in
      call (av_buffersink_get_frame (out_ctx s) out).

Definition process_filter_graph (in1 in2 : AVFrame) : M Z :=
  s <- get_self ;;
  match filter_graph s with
  | None =>
      res <- init_filter_graph ;;
      if res <? 0 then ret res else run_filter_graph in1 in2
  | Some _ => run_filter_graph in1 in2
  end.

(** ** _fill_avpicture

    The loop writes [data[i]] and [linesize[i]] for each component; a
    GStreamer format has at most four, the arrays eight entries. *)
Definition fill_component (vframe : GstVideoFrame) (picture : AVFrame) (i : nat) : AVFrame :=
  {| av_data := <[i := GST_VIDEO_FRAME_COMP_DATA vframe i]> (av_data picture);
     av_linesize := <[i := GST_VIDEO_FRAME_COMP_STRIDE vframe i]> (av_linesize picture);
     av_width := av_width picture; av_height := av_height picture;
     av_format := av_format picture |}.

Definition _fill_avpicture (s : GstFFMpegVidCmp) (picture : AVFrame)
    (vframe : GstVideoFrame) : AVFrame :=
  let picture :=
    foldl (fill_component vframe) picture (seq 0 (GST_VIDEO_FRAME_N_COMPONENTS vframe)) in
  {| av_data := av_data picture; av_linesize := av_linesize picture;
     av_width := GST_VIDEO_FRAME_WIDTH vframe;
     av_height := GST_VIDEO_FRAME_HEIGHT vframe;
     av_format := Some (pixfmt s) |}.

(** ** Mapping and copying video frames *)

(** Mapping [buffer] with layout [info]: fails when the address holds no
    buffer or when the video library refuses the mapping. *)
Definition video_frame_map (info : GstVideoInfo) (buffer : nat) (flags : GstMapFlags)
    : M (option GstVideoFrame) :=
  fun w =>
    match heap w !! buffer with
    | None => (None, w)
    | Some b =>
        match gst_video_frame_map info b flags with
        | None => (None, w)
        | Some comps =>
            (Some {| vf_info := info; vf_buffer := buffer; vf_comp := comps |}, w)
        end
    end.

Definition with_planes (p : list (list Byte.byte)) (b : GstBuffer) : GstBuffer :=
  {| pts := pts b; duration := duration b; planes := p |}.

(** Modelled from the spec: [gst_video_frame_copy] is part of the GStreamer
    video library, not of the sources at hand.  The spec has it as "a full
    plane-wise copy of the reference": every plane of the source frame's
    buffer is written over the destination's; nothing else of the
    destination buffer, and nothing of the source, is touched. *)
Definition gst_video_frame_copy (dest src : GstVideoFrame) : M unit :=
  fun w =>
    match heap w !! vf_buffer src, heap w !! vf_buffer dest with
    | Some sb, Some db =>
        (tt, set_heap (<[vf_buffer dest := with_planes (planes sb) db]> (heap w)) w)
    | _, _ => (tt, w)
    end.

(** ** gst_ffmpegvidcmp_aggregate_frames *)
Definition gst_ffmpegvidcmp_aggregate_frames (outbuf : nat) : M GstFlowReturn :=
  ref <- (fun w => (gst_video_aggregator_pad_get_prepared_frame (sinkpad1 w), w)) ;;
  cmp <- (fun w => (gst_video_aggregator_pad_get_prepared_frame (sinkpad2 w), w)) ;;
  match ref, cmp with
  | Some ref, Some cmp =>
      s <- get_self ;;
      let avref := _fill_avpicture s AVFrame_zero ref in
      let avcmp := _fill_avpicture s AVFrame_zero cmp in
      res <- process_filter_graph avref avcmp ;;
      (if res <? 0 then GST_WARNING_OBJECT "Could not process filter graph"
       else ret tt) ;;;
      info <- (fun w => (vagg_info w, w)) ;;
      out <- video_frame_map info outbuf GST_MAP_WRITE ;;
      match out with
      | None => ret GST_FLOW_ERROR
      | Some out =>
          gst_video_frame_copy out ref ;;;
          ret GST_FLOW_OK
      end
  | _, _ => ret GST_FLOW_EOS
  end.


(** ** Properties *)
Definition gst_ffmpegvidcmp_set_property (prop_id : nat) (v : GValue) : M unit :=
  s <- get_self ;;
  if decide (prop_id = PROP_STATS_FILE) then
    match filter_graph s with
    | Some _ =>
        GST_WARNING_OBJECT
          "changing the stats file after the filter graph is initialized is not supported"
    | None => modify_self (with_stats_file (g_value_get_string v))
    end
  else if decide (prop_id = PROP_VIDCMP_METHOD) then
    match filter_graph s with
    | Some _ =>
        GST_WARNING_OBJECT
          "changing the method after the filter graph is initialized is not supported"
    | None => modify_self (with_method (g_value_get_enum v))
    end
  else
    GST_WARNING_OBJECT "invalid property id".

Definition gst_ffmpegvidcmp_get_property (prop_id : nat) : M (option GValue) :=
  s <- get_self ;;
  if decide (prop_id = PROP_STATS_FILE) then ret (Some (GValueString (stats_file s)))
  else if decide (prop_id = PROP_VIDCMP_METHOD) then ret (Some (GValueEnum (method s)))
  else GST_WARNING_OBJECT "invalid property id" ;;; ret None.

(** ** Instance initialisation and finalisation *)

(** GObject hands out zero-filled instance memory (0 is YUV420P in libav's
    enum); the two pads are created from their templates. *)
Definition fresh_pad : GstVideoAggregatorPad :=
  {| pad_info := gst_video_info_init; prepared_frame := None; pad_eos := false |}.

Definition zeroed_instance : GstFFMpegVidCmp :=
  {| width := 0; height := 0; fps_num := 0; fps_denom := 0;
     filter_graph := None; in1_ctx := None; in2_ctx := None; out_ctx := None;
     pixfmt := AV_PIX_FMT_YUV420P; method := 0; stats_file := None |}.

Definition gst_ffmpegvidcmp_init : M unit :=
  gst_ffmpegvidcmp_reset ;;;
  modify_self (with_stats_file (Some DEFAULT_STATS_FILE)) ;;;
  modify_self (with_method DEFAULT_VIDCMP_METHOD).

(** [finalize] releases the stats-file string, which nothing reads
    afterwards, resets, and leaves the rest to the parent class. *)
Definition gst_ffmpegvidcmp_finalize : M unit :=
  gst_ffmpegvidcmp_reset.

(** A newly created element over a given buffer store and outside state. *)
Definition new_element (h : gmap nat GstBuffer) (e : ExtState) : World :=
  snd (gst_ffmpegvidcmp_init
         {| self := zeroed_instance; sinkpad1 := fresh_pad; sinkpad2 := fresh_pad;
            vagg_info := gst_video_info_init; heap := h; ext := e; log := [] |}).

(** ** How the host drives the element

    The base class puts the frames for the current output on the pads and
    calls [aggregate_frames] with the buffer it allocated; caps events and
    property writes arrive in between. *)
Definition with_prepared (f : option GstVideoFrame) (p : GstVideoAggregatorPad)
    : GstVideoAggregatorPad :=
  {| pad_info := pad_info p; prepared_frame := f; pad_eos := pad_eos p |}.

Definition prepare_frames (ref cmp : option GstVideoFrame) : M unit :=
  fun w =>
    (tt, {| self := self w;
            sinkpad1 := with_prepared ref (sinkpad1 w);
            sinkpad2 := with_prepared cmp (sinkpad2 w);
            vagg_info := vagg_info w; heap := heap w; ext := ext w; log := log w |}).

Inductive Op :=
| OpSinkEvent (event : GstEvent GstCaps)
| OpSetProperty (prop_id : nat) (v : GValue)
| OpAggregate (ref cmp : option GstVideoFrame) (outbuf : nat)
| OpReset.

Definition run_op (w : World) (o : Op) : World :=
  match o with
  | OpSinkEvent ev => snd (gst_ffmpegvidcmp_sink_event ev w)
  | OpSetProperty id v => snd (gst_ffmpegvidcmp_set_property id v w)
  | OpAggregate ref cmp outbuf =>
      snd ((prepare_frames ref cmp ;;; gst_ffmpegvidcmp_aggregate_frames outbuf) w)
  | OpReset => snd (gst_ffmpegvidcmp_reset w)
  end.

Definition run (ops : list Op) (w : World) : World := foldl run_op w ops.

(** The element has processed a pair once the host has aggregated with a
    frame on both pads. *)
Definition is_pair (o : Op) : bool :=
  match o with
  | OpAggregate (Some _) (Some _) _ => true
  | _ => false
  end.
Definition processed_a_pair (ops : list Op) : bool := existsb is_pair ops.

(** ** What a call leaves alone *)

(** The negotiated configuration of the instance. *)
Definition same_config (s s' : GstFFMpegVidCmp) : Prop :=
  width s' = width s /\ height s' = height s /\ fps_num s' = fps_num s /\
  fps_denom s' = fps_denom s /\ pixfmt s' = pixfmt s /\
  method s' = method s /\ stats_file s' = stats_file s.

(** Everything but the filter graph, the outside state and the log. *)
Definition preserves (w w' : World) : Prop :=
  heap w' = heap w /\ sinkpad1 w' = sinkpad1 w /\ sinkpad2 w' = sinkpad2 w /\
  vagg_info w' = vagg_info w /\ same_config (self w) (self w') /\
  exists l, log w' = log w ++ l.

(** A computation that only moves the filter graph, the outside state and
    the log. *)
Definition Preserving {A} (m : M A) : Prop := forall w, preserves w (snd (m w)).

End Element.

(** ** The child proxy interface

    The two functions read the element's list of sink pads and its counter,
    both kept by GstElement; objects are addresses with a reference count. *)
Record GstElement := {
  sinkpads : list nat;           (* GST_ELEMENT_CAST (self)->sinkpads *)
  numsinkpads : nat              (* GST_ELEMENT_CAST (self)->numsinkpads *)
}.

Record ProxyWorld := {
  element : GstElement;
  refcount : gmap nat Z
}.

(** [g_list_nth_data]: the data of the n-th link, NULL off the end. *)
Definition g_list_nth_data (l : list nat) (n : nat) : option nat := l !! n.

(** [gst_object_ref]: one more reference to a live object. *)
Definition gst_object_ref (obj : nat) (pw : ProxyWorld) : ProxyWorld :=
  {| element := element pw; refcount := alter Z.succ obj (refcount pw) |}.

Definition gst_ffmpegvidcmp_child_proxy_get_child_by_index (index : nat) (pw : ProxyWorld)
    : option nat * ProxyWorld :=
  let obj := g_list_nth_data (sinkpads (element pw)) index in
  match obj with
  | Some o => (obj, gst_object_ref o pw)
  | None => (obj, pw)
  end.

Definition gst_ffmpegvidcmp_child_proxy_get_children_count (pw : ProxyWorld) : nat :=
  numsinkpads (element pw).

(** ** A simulated outside

    For running the element on concrete inputs: caps are video infos, there
    is no outside state, and a scenario says which of the calls that can fail
    do fail. *)
Record Scenario := {
  alloc_succeeds : bool;        (* avfilter_graph_alloc returns a graph *)
  get_frame_result : Z;         (* what av_buffersink_get_frame returns *)
  map_succeeds : bool           (* gst_video_frame_map of the output buffer *)
}.

Definition sim (sc : Scenario) : Externals :=
  {| GstCaps := GstVideoInfo;
     ExtState := unit;
     gst_video_info_from_caps := fun caps => Some caps;
     gst_video_info_to_caps := fun info => info;
     gst_video_frame_map := fun _ _ _ => if map_succeeds sc then Some [] else None;
     parent_sink_event := fun _ e => (true, e);
     parent_update_caps := fun _ _ _ caps e => (Some caps, e);
     g_vasprintf := fun fmt _ e => ((Z.of_nat (String.length fmt), fmt), e);
     avfilter_graph_alloc := fun e => (if alloc_succeeds sc then Some 1%nat else None, e);
     avfilter_graph_parse2 := fun _ _ e => ((0, false, false), e);
     avfilter_graph_config := fun _ e => (0, e);
     avfilter_graph_get_filter := fun _ name _ =>
       if String.eqb name "Parsed_buffer_0" then Some 10%nat
       else if String.eqb name "Parsed_buffer_1" then Some 11%nat
       else if String.eqb name "Parsed_buffersink_3" then Some 13%nat
       else None;
     avfilter_graph_free := fun _ e => e;
     av_buffersrc_add_frame := fun _ _ _ e => (0, e);
     av_buffersink_get_frame := fun _ _ e => (get_frame_result sc, e) |}.

Definition all_well : Scenario :=
  {| alloc_succeeds := true; get_frame_result := 0; map_succeeds := true |}.
Definition alloc_fails : Scenario :=
  {| alloc_succeeds := false; get_frame_result := 0; map_succeeds := true |}.
Definition metric_fails : Scenario :=
  {| alloc_succeeds := true; get_frame_result := -1; map_succeeds := true |}.
Definition metric_and_map_fail : Scenario :=
  {| alloc_succeeds := true; get_frame_result := -1; map_succeeds := false |}.

(** Two 2x2 I420 streams at 25 frames per second and an output buffer. *)
Definition info_2x2 : GstVideoInfo :=
  {| vi_format := GST_VIDEO_FORMAT_I420; vi_width := 2; vi_height := 2;
     vi_fps_n := 25; vi_fps_d := 1 |}.
Definition info_4x2 : GstVideoInfo :=
  {| vi_format := GST_VIDEO_FORMAT_I420; vi_width := 4; vi_height := 2;
     vi_fps_n := 25; vi_fps_d := 1 |}.
Definition info_rgb24 : GstVideoInfo :=
  {| vi_format := GST_VIDEO_FORMAT_other 15; vi_width := 2; vi_height := 2;
     vi_fps_n := 25; vi_fps_d := 1 |}.

Definition ref_buffer : GstBuffer :=
  {| pts := 40; duration := 40;
     planes := [ [Byte.x10; Byte.x20; Byte.x30; Byte.x40]; [Byte.x80]; [Byte.x81] ] |}.
Definition cmp_buffer : GstBuffer :=
  {| pts := 40; duration := 40;
     planes := [ [Byte.x11; Byte.x20; Byte.x30; Byte.x40]; [Byte.x80]; [Byte.x81] ] |}.
Definition out_buffer : GstBuffer :=
  {| pts := 0; duration := 20;
     planes := [ [Byte.x00; Byte.x00; Byte.x00; Byte.x00]; [Byte.x00]; [Byte.x00] ] |}.

Definition store : gmap nat GstBuffer :=
  <[1%nat := ref_buffer]> (<[2%nat := cmp_buffer]> (<[3%nat := out_buffer]> ∅)).

Definition frame_of (buffer : nat) : GstVideoFrame :=
  {| vf_info := info_2x2; vf_buffer := buffer;
     vf_comp := [ ({| ptr_buffer := buffer; ptr_plane := 0; ptr_offset := 0 |}, 2);
                  ({| ptr_buffer := buffer; ptr_plane := 1; ptr_offset := 0 |}, 1);
                  ({| ptr_buffer := buffer; ptr_plane := 2; ptr_offset := 0 |}, 1) ] |}.
Definition ref_frame : GstVideoFrame := frame_of 1.
Definition cmp_frame : GstVideoFrame := frame_of 2.

(** The element after its caps event, with the output format the base class
    negotiated from it. *)
Definition configured_element (sc : Scenario) : @World (sim sc) :=
  let w := @run (sim sc) [@OpSinkEvent (sim sc) (GST_EVENT_CAPS info_2x2)]
             (@new_element (sim sc) store tt) in
  {| self := self w; sinkpad1 := sinkpad1 w; sinkpad2 := sinkpad2 w;
     vagg_info := info_2x2; heap := heap w; ext := ext w; log := log w |}.

(** One pair, written to the buffer at address 3; then a reset. *)
Definition one_pair (sc : Scenario) : list (@Op (sim sc)) :=
  [ @OpAggregate (sim sc) (Some ref_frame) (Some cmp_frame) 3 ].
Definition one_pair_then_reset (sc : Scenario) : list (@Op (sim sc)) :=
  [ @OpAggregate (sim sc) (Some ref_frame) (Some cmp_frame) 3; @OpReset (sim sc) ].

Definition after_one_pair (sc : Scenario) : @World (sim sc) :=
  @run (sim sc) (one_pair sc) (configured_element sc).

(** Both frames of a pair are on the pads. *)
Definition pair_ready (sc : Scenario) : @World (sim sc) :=
  snd (@prepare_frames (sim sc) (Some ref_frame) (Some cmp_frame) (configured_element sc)).

(** The reference frame is there, the second input has nothing yet and has
    not ended. *)
Definition starved (sc : Scenario) : @World (sim sc) :=
  snd (@prepare_frames (sim sc) (Some ref_frame) None (configured_element sc)).

(** An outside where libav cannot parse the graph description. *)
Definition sim_parse_fails : Externals :=
  {| GstCaps := GstVideoInfo;
     ExtState := unit;
     gst_video_info_from_caps := fun caps => Some caps;
     gst_video_info_to_caps := fun info => info;
     gst_video_frame_map := fun _ _ _ => Some [];
     parent_sink_event := fun _ e => (true, e);
     parent_update_caps := fun _ _ _ caps e => (Some caps, e);
     g_vasprintf := fun fmt _ e => ((Z.of_nat (String.length fmt), fmt), e);
     avfilter_graph_alloc := fun e => (Some 1%nat, e);
     avfilter_graph_parse2 := fun _ _ e => ((-22, false, false), e);
     avfilter_graph_config := fun _ e => (0, e);
     avfilter_graph_get_filter := fun _ _ _ => Some 10%nat;
     avfilter_graph_free := fun _ e => e;
     av_buffersrc_add_frame := fun _ _ _ e => (0, e);
     av_buffersink_get_frame := fun _ _ e => (0, e) |}.

(** The configured element over that outside, with both frames of a pair on
    the pads. *)
Definition pair_ready_parse_fails : @World sim_parse_fails :=
  @run sim_parse_fails
    [ @OpSinkEvent sim_parse_fails (GST_EVENT_CAPS info_2x2) ]
    (snd (@prepare_frames sim_parse_fails (Some ref_frame) (Some cmp_frame)
            (@new_element sim_parse_fails store tt))).




(** An outside whose buffer sources refuse every frame. *)
Definition sim_source_refuses : Externals :=
  {| GstCaps := GstVideoInfo;
     ExtState := nat;                       (* counts the calls into libav *)
     gst_video_info_from_caps := fun caps => Some caps;
     gst_video_info_to_caps := fun info => info;
     gst_video_frame_map := fun _ _ _ => Some [];
     parent_sink_event := fun _ e => (true, e);
     parent_update_caps := fun _ _ _ caps e => (Some caps, e);
     g_vasprintf := fun fmt _ e => ((Z.of_nat (String.length fmt), fmt), e);
     avfilter_graph_alloc := fun e => (Some 1%nat, S e);
     avfilter_graph_parse2 := fun _ _ e => ((0, false, false), S e);
     avfilter_graph_config := fun _ e => (0, S e);
     avfilter_graph_get_filter := fun _ _ _ => Some 10%nat;
     avfilter_graph_free := fun _ e => S e;
     av_buffersrc_add_frame := fun _ _ _ e => (-22, S e);
     av_buffersink_get_frame := fun _ _ e => (0, S e) |}.

(** The configured element over the refusing outside, before its first
    pair. *)
Definition configured_refusing : @World sim_source_refuses :=
  @run sim_source_refuses
    [ @OpSinkEvent sim_source_refuses (GST_EVENT_CAPS info_2x2) ]
    (@new_element sim_source_refuses store 0%nat).

(** The configured element after [method] was set to 7, which is no value
    of the enumeration. *)
Definition with_method_7 : @World (sim all_well) :=
  @run (sim all_well) [ @OpSetProperty (sim all_well) PROP_VIDCMP_METHOD (GValueEnum 7) ]
    (configured_element all_well).

(** A trace with caps, pairs and a reset, but no property write; and one
    with property writes, but no reset. *)
Definition trace_without_writes : list (@Op (sim all_well)) :=
  [ @OpAggregate (sim all_well) (Some ref_frame) (Some cmp_frame) 3;
    @OpSinkEvent (sim all_well) (GST_EVENT_CAPS info_4x2);
    @OpReset (sim all_well);
    @OpSinkEvent (sim all_well) (GST_EVENT_CAPS info_rgb24);
    @OpAggregate (sim all_well) (Some ref_frame) None 3 ].
Definition trace_without_reset : list (@Op (sim all_well)) :=
  [ @OpSetProperty (sim all_well) PROP_VIDCMP_METHOD (GValueEnum GST_FFMPEGVIDCMP_METHOD_PSNR);
    @OpSinkEvent (sim all_well) (GST_EVENT_CAPS info_4x2);
    @OpSetProperty (sim all_well) PROP_STATS_FILE (GValueString (Some "stats.log"));
    @OpAggregate (sim all_well) (Some ref_frame) (Some cmp_frame) 3 ].

(** An element with its two sink pads at addresses 100 and 101. *)
Definition two_pads : ProxyWorld :=
  {| element := {| sinkpads := [100%nat; 101%nat]; numsinkpads := 2 |};
     refcount := <[100%nat := 1]> (<[101%nat := 1]> ∅) |}.

Section Properties.
Context `{Ext : Externals}.

Lemma preserves_refl w : preserves w w.
Proof.
  unfold preserves, same_config. repeat split; try reflexivity.
  exists []. now rewrite app_nil_r.
Qed.

Lemma preserves_trans w1 w2 w3 : preserves w1 w2 -> preserves w2 w3 -> preserves w1 w3.
Proof.
  unfold preserves, same_config.
  intros (?&?&?&?&(?&?&?&?&?&?&?)&l1&?) (?&?&?&?&(?&?&?&?&?&?&?)&l2&?).
  repeat split; try congruence.
  exists (l1 ++ l2). rewrite app_assoc. congruence.
Qed.

Lemma Preserving_ret {A} (a : A) : Preserving (ret a).
Proof. intros w. apply preserves_refl. Qed.

Lemma Preserving_bind {A B} (m : M A) (k : A -> M B) :
  Preserving m -> (forall a, Preserving (k a)) -> Preserving (bind m k).
Proof.
  intros Hm Hk w. unfold bind. specialize (Hm w).
  destruct (m w) as [a w1]. eapply preserves_trans; [exact Hm|apply Hk].
Qed.

Lemma Preserving_call {A} (f : ExtState -> A * ExtState) : Preserving (call f).
Proof.
  intros w. unfold call. destruct (f (ext w)). unfold preserves, same_config; cbn.
  repeat split. exists []. now rewrite app_nil_r.
Qed.

Lemma Preserving_read {A} (f : World -> A) : Preserving (fun w => (f w, w)).
Proof. intros w. apply preserves_refl. Qed.

Lemma Preserving_debug lvl msg : Preserving (gst_debug lvl msg).
Proof.
  intros w. unfold preserves, same_config; cbn. repeat split. now eexists.
Qed.

Lemma Preserving_with_filter_graph g : Preserving (modify_self (with_filter_graph g)).
Proof.
  intros w. unfold preserves, same_config; cbn. repeat split.
  exists []. now rewrite app_nil_r.
Qed.

Lemma Preserving_with_ctxs i1 i2 o : Preserving (modify_self (with_ctxs i1 i2 o)).
Proof.
  intros w. unfold preserves, same_config; cbn. repeat split.
  exists []. now rewrite app_nil_r.
Qed.

Ltac preserving_step :=
  first
    [ apply Preserving_bind; [|intro]
    | apply Preserving_ret
    | apply Preserving_call
    | apply (Preserving_read self)
    | apply (Preserving_read heap)
    | apply (Preserving_read vagg_info)
    | apply Preserving_debug
    | apply Preserving_with_filter_graph
    | apply Preserving_with_ctxs
    | match goal with
      | |- Preserving (match ?x with _ => _ end) => destruct x
      | |- Preserving (let (_, _) := ?x in _) => destruct x
      end ].

Lemma init_filter_graph_Preserving : Preserving init_filter_graph.
Proof.
  unfold init_filter_graph, _make_str, ask, get_self, GST_ERROR_OBJECT, GST_INFO_OBJECT.
  repeat preserving_step.
Qed.

Lemma run_filter_graph_Preserving in1 in2 : Preserving (run_filter_graph in1 in2).
Proof.
  unfold run_filter_graph, get_self. repeat preserving_step.
Qed.

Lemma process_filter_graph_Preserving in1 in2 : Preserving (process_filter_graph in1 in2).
Proof.
  unfold process_filter_graph, get_self.
  repeat first [ apply init_filter_graph_Preserving
               | apply run_filter_graph_Preserving
               | preserving_step ].
Qed.

(** *** aggregate_frames on a pair

    With a frame on both pads the call runs the filter graph, warns when that
    failed, and then maps the output buffer and copies the reference into
    it; the world [w2] is the one after the filter graph and the warning. *)
Lemma aggregate_frames_pair w outbuf ref cmp :
  prepared_frame (sinkpad1 w) = Some ref ->
  prepared_frame (sinkpad2 w) = Some cmp ->
  exists res w1 w2,
    process_filter_graph (_fill_avpicture (self w) AVFrame_zero ref)
                         (_fill_avpicture (self w) AVFrame_zero cmp) w = (res, w1) /\
    preserves w w1 /\
    w2 = (if res <? 0
          then set_log (log w1 ++ [(GST_LEVEL_WARNING, "Could not process filter graph")]) w1
          else w1) /\
    heap w2 = heap w /\
    gst_ffmpegvidcmp_aggregate_frames outbuf w =
      match heap w !! outbuf with
      | None => (GST_FLOW_ERROR, w2)
      | Some ob =>
          match gst_video_frame_map (vagg_info w) ob GST_MAP_WRITE with
          | None => (GST_FLOW_ERROR, w2)
          | Some comps =>
              (GST_FLOW_OK,
               snd (gst_video_frame_copy
                      {| vf_info := vagg_info w; vf_buffer := outbuf; vf_comp := comps |}
                      ref w2))
          end
      end.
Proof.
  intros H1 H2.
  destruct (process_filter_graph (_fill_avpicture (self w) AVFrame_zero ref)
              (_fill_avpicture (self w) AVFrame_zero cmp) w) as [res w1] eqn:E.
  assert (P : preserves w w1).
  { pose proof (process_filter_graph_Preserving
                  (_fill_avpicture (self w) AVFrame_zero ref)
                  (_fill_avpicture (self w) AVFrame_zero cmp) w) as P.
    now rewrite E in P. }
  exists res, w1. eexists. split; [reflexivity|]. split; [exact P|].
  split; [reflexivity|].
  destruct P as (Hh & _ & _ & Hv & _).
  assert (Hh2 : heap (if res <? 0
          then set_log (log w1 ++ [(GST_LEVEL_WARNING, "Could not process filter graph")]) w1
          else w1) = heap w) by (destruct (res <? 0); cbn; exact Hh).
  assert (Hv2 : vagg_info (if res <? 0
          then set_log (log w1 ++ [(GST_LEVEL_WARNING, "Could not process filter graph")]) w1
          else w1) = vagg_info w) by (destruct (res <? 0); cbn; exact Hv).
  split; [exact Hh2|].
  unfold gst_ffmpegvidcmp_aggregate_frames, gst_video_aggregator_pad_get_prepared_frame.
  unfold bind at 1 2. rewrite H1, H2. unfold bind at 1. unfold get_self at 1.
  unfold bind at 1. rewrite E.
  unfold bind at 1.
  replace ((if res <? 0 then GST_WARNING_OBJECT "Could not process filter graph" else ret tt) w1)
    with (tt, if res <? 0
          then set_log (log w1 ++ [(GST_LEVEL_WARNING, "Could not process filter graph")]) w1
          else w1) by (destruct (res <? 0); reflexivity).
  unfold bind, video_frame_map, ret. rewrite Hh2, Hv2.
  destruct (heap w !! outbuf) as [ob|]; [|reflexivity].
  destruct (gst_video_frame_map (vagg_info w) ob GST_MAP_WRITE) as [comps|]; [|reflexivity].
  now destruct (gst_video_frame_copy _ ref _).
Qed.

(** ** Forwarding the reference frame *)

(** C1, as amended: a pair that completes (both frames present, the call
    returns GST_FLOW_OK) leaves the output buffer with exactly the planes of
    the reference frame's buffer, written over whatever it held; the output
    buffer keeps the timestamp and the duration it came with (the element
    does not take them from the reference); the reference's pixel data is as
    before, its whole buffer is when the output is a buffer of its own, and
    no buffer other than the output is written. *)
Theorem aggregate_frames_copies_reference_planes w outbuf ref cmp rb w' :
  prepared_frame (sinkpad1 w) = Some ref ->
  prepared_frame (sinkpad2 w) = Some cmp ->
  heap w !! vf_buffer ref = Some rb ->
  gst_ffmpegvidcmp_aggregate_frames outbuf w = (GST_FLOW_OK, w') ->
  exists ob,
    heap w !! outbuf = Some ob /\
    heap w' !! outbuf =
      Some {| pts := pts ob; duration := duration ob; planes := planes rb |} /\
    planes <$> heap w' !! vf_buffer ref = Some (planes rb) /\
    (outbuf <> vf_buffer ref -> heap w' !! vf_buffer ref = Some rb) /\
    (forall a, a <> outbuf -> heap w' !! a = heap w !! a).
Proof.
  intros H1 H2 Hrb Hrun.
  destruct (aggregate_frames_pair w outbuf ref cmp H1 H2)
    as (res & w1 & w2 & _ & _ & _ & Hh2 & Heq).
  rewrite Heq in Hrun. clear Heq.
  destruct (heap w !! outbuf) as [ob|] eqn:Hob; [|discriminate].
  destruct (gst_video_frame_map (vagg_info w) ob GST_MAP_WRITE) as [comps|]; [|discriminate].
  injection Hrun as <-.
  exists ob. split; [reflexivity|].
  unfold gst_video_frame_copy; cbn [vf_buffer]. rewrite Hh2, Hrb, Hob. cbn.
  split; [apply lookup_insert_eq|].
  split.
  - destruct (decide (outbuf = vf_buffer ref)) as [<-|Hne].
    + now rewrite lookup_insert_eq.
    + now rewrite lookup_insert_ne, Hrb.
  - split.
    + intros Hne. now rewrite lookup_insert_ne.
    + intros a Hne. now rewrite lookup_insert_ne.
Qed.

(** C2, as amended: when the filter graph fails on a pair,
    [aggregate_frames] itself surfaces that as one warning and nothing else:
    its log is the log the filter graph functions left (which holds their
    own messages, an error among them when the graph could not be
    initialised) followed by the warning.  If the output buffer can be
    mapped for writing, the call still returns GST_FLOW_OK and the output
    buffer holds the reference's planes; if it cannot, the call returns
    GST_FLOW_ERROR and no buffer is written. *)
Theorem metric_failure_still_forwards w outbuf ref cmp rb res w1 :
  prepared_frame (sinkpad1 w) = Some ref ->
  prepared_frame (sinkpad2 w) = Some cmp ->
  heap w !! vf_buffer ref = Some rb ->
  process_filter_graph (_fill_avpicture (self w) AVFrame_zero ref)
                       (_fill_avpicture (self w) AVFrame_zero cmp) w = (res, w1) ->
  res < 0 ->
  let r := gst_ffmpegvidcmp_aggregate_frames outbuf w in
  log (snd r) = log w1 ++ [(GST_LEVEL_WARNING, "Could not process filter graph")] /\
  self (snd r) = self w1 /\ ext (snd r) = ext w1 /\
  match heap w !! outbuf with
  | Some ob =>
      match gst_video_frame_map (vagg_info w) ob GST_MAP_WRITE with
      | Some _ =>
          fst r = GST_FLOW_OK /\
          heap (snd r) = <[outbuf := with_planes (planes rb) ob]> (heap w)
      | None => fst r = GST_FLOW_ERROR /\ heap (snd r) = heap w
      end
  | None => fst r = GST_FLOW_ERROR /\ heap (snd r) = heap w
  end.
Proof.
  intros H1 H2 Hrb Hp Hfail. cbn zeta.
  destruct (aggregate_frames_pair w outbuf ref cmp H1 H2)
    as (res' & w1' & w2 & Hp' & _ & Hw2 & Hh2 & ->).
  rewrite Hp in Hp'. injection Hp' as <- <-.
  apply Z.ltb_lt in Hfail. rewrite Hfail in Hw2. subst w2. cbn in Hh2.
  destruct (heap w !! outbuf) as [ob|] eqn:Hob;
    [destruct (gst_video_frame_map (vagg_info w) ob GST_MAP_WRITE)|]; cbn [fst snd].
  - unfold gst_video_frame_copy; cbn [vf_buffer heap set_log].
    rewrite !Hh2, Hrb, Hob. cbn. repeat split.
  - cbn. repeat split. exact Hh2.
  - cbn. repeat split. exact Hh2.
Qed.

(** ** Starvation and end of stream *)

(** C5, as amended: the call has no "wait" outcome.  It answers
    GST_FLOW_EOS, changing nothing, exactly when at least one pad has no
    prepared frame, whether or not that pad has signalled end-of-stream;
    otherwise both frames are there and the answer is GST_FLOW_OK or
    GST_FLOW_ERROR. *)
Theorem aggregate_frames_eos_iff_frame_missing w outbuf :
  match fst (gst_ffmpegvidcmp_aggregate_frames outbuf w) with
  | GST_FLOW_EOS =>
      (prepared_frame (sinkpad1 w) = None \/ prepared_frame (sinkpad2 w) = None) /\
      snd (gst_ffmpegvidcmp_aggregate_frames outbuf w) = w
  | GST_AGGREGATOR_FLOW_NEED_DATA => False
  | GST_FLOW_OK | GST_FLOW_ERROR =>
      is_Some (prepared_frame (sinkpad1 w)) /\ is_Some (prepared_frame (sinkpad2 w))
  end.
Proof.
  destruct (prepared_frame (sinkpad1 w)) as [ref|] eqn:H1;
    [destruct (prepared_frame (sinkpad2 w)) as [cmp|] eqn:H2|].
  - destruct (aggregate_frames_pair w outbuf ref cmp H1 H2)
      as (res & w1 & w2 & _ & _ & _ & _ & ->).
    destruct (heap w !! outbuf) as [ob|]; [|cbn; eauto].
    destruct (gst_video_frame_map (vagg_info w) ob GST_MAP_WRITE); cbn; eauto.
  - unfold gst_ffmpegvidcmp_aggregate_frames, gst_video_aggregator_pad_get_prepared_frame,
      bind, ret. rewrite H1, H2. cbn. eauto.
  - unfold gst_ffmpegvidcmp_aggregate_frames, gst_video_aggregator_pad_get_prepared_frame,
      bind, ret. rewrite H1. cbn. destruct (prepared_frame (sinkpad2 w)); eauto.
Qed.

(** [setcaps] on caps that parse. *)
Lemma setcaps_parsed w caps vinfo :
  gst_video_info_from_caps caps = Some vinfo ->
  let s' := with_pixfmt (gst_ffmpeg_videoformat_to_pixfmt (vi_format vinfo))
              (with_geometry (vi_width vinfo) (vi_height vinfo)
                             (vi_fps_n vinfo) (vi_fps_d vinfo) (self w)) in
  gst_ffmpegvidcmp_setcaps caps w =
    if decide (gst_ffmpeg_videoformat_to_pixfmt (vi_format vinfo) = AV_PIX_FMT_NONE)
    then (false, set_log (log w ++ [(GST_LEVEL_ERROR, "failed to find suitable ffmpeg pixfmt")])
                   (set_self s' w))
    else (true, set_self s' w).
Proof.
  intros H. unfold gst_ffmpegvidcmp_setcaps. rewrite H.
  unfold bind, modify_self, get_self; cbn.
  destruct (decide _); reflexivity.
Qed.

(** ** The life of the filter graph

    The pointer is set by the first pair whose graph can be allocated, and
    from then on only [reset] clears it. *)

(** Case analysis on the innermost scrutinee in the goal. *)
Ltac destruct_scrutinee x :=
  lazymatch x with
  | context [match _ with _ => _ end] => fail
  | _ => destruct x
  end.
Ltac crunch :=
  repeat (cbn;
          match goal with
          | |- context [let (_, _) := ?x in _] => destruct_scrutinee x
          | |- context [if ?x then _ else _] => destruct_scrutinee x
          | |- context [match ?x with _ => _ end] => destruct_scrutinee x
          end);
  cbn.

Lemma run_filter_graph_self in1 in2 w :
  self (snd (run_filter_graph in1 in2 w)) = self w.
Proof.
  unfold run_filter_graph, bind, get_self, call, ret. crunch; reflexivity.
Qed.

(** What [aggregate_frames] does to the instance is what the filter graph
    processing does to it. *)
Lemma aggregate_frames_self w outbuf :
  self (snd (gst_ffmpegvidcmp_aggregate_frames outbuf w)) =
    match prepared_frame (sinkpad1 w), prepared_frame (sinkpad2 w) with
    | Some ref, Some cmp =>
        self (snd (process_filter_graph (_fill_avpicture (self w) AVFrame_zero ref)
                                        (_fill_avpicture (self w) AVFrame_zero cmp) w))
    | _, _ => self w
    end.
Proof.
  destruct (prepared_frame (sinkpad1 w)) as [ref|] eqn:H1;
    [destruct (prepared_frame (sinkpad2 w)) as [cmp|] eqn:H2|].
  - destruct (aggregate_frames_pair w outbuf ref cmp H1 H2)
      as (res & w1 & w2 & -> & _ & -> & _ & ->).
    cbn [snd].
    assert (Hw2 : self (if res <? 0
                        then set_log (log w1 ++ [(GST_LEVEL_WARNING,
                                                  "Could not process filter graph")]) w1
                        else w1) = self w1) by now destruct (res <? 0).
    destruct (heap w !! outbuf) as [ob|]; [|exact Hw2].
    destruct (gst_video_frame_map (vagg_info w) ob GST_MAP_WRITE); [|exact Hw2].
    cbn [snd]. unfold gst_video_frame_copy.
    destruct (heap _ !! vf_buffer ref); [|exact Hw2].
    destruct (heap _ !! _); exact Hw2.
  - unfold gst_ffmpegvidcmp_aggregate_frames, gst_video_aggregator_pad_get_prepared_frame,
      bind, ret. now rewrite H1, H2.
  - unfold gst_ffmpegvidcmp_aggregate_frames, gst_video_aggregator_pad_get_prepared_frame,
      bind, ret. rewrite H1. now destruct (prepared_frame (sinkpad2 w)).
Qed.

(** The first pair allocates the graph: with a known method, a description
    that could be formatted and an allocation that succeeds, the pointer is
    set whatever libav makes of the graph afterwards. *)
Lemma init_filter_graph_allocates w m res args e1 g e2 :
  g_enum_get_value enum_values (method (self w)) = Some m ->
  g_vasprintf filter_graph_description
    [ ArgInt (width (self w)); ArgInt (height (self w)); ArgPixFmt (pixfmt (self w));
      ArgInt (width (self w)); ArgInt (height (self w)); ArgPixFmt (pixfmt (self w));
      ArgStr (Some (value_nick m)); ArgStr (stats_file (self w)) ] (ext w) =
    ((res, args), e1) ->
  0 <= res ->
  avfilter_graph_alloc e1 = (Some g, e2) ->
  filter_graph (self (snd (init_filter_graph w))) = Some g.
Proof.
  intros Hm Hs Hres Ha.
  unfold init_filter_graph, bind, get_self, _make_str, call, ask, modify_self, ret,
    GST_INFO_OBJECT, GST_ERROR_OBJECT, gst_debug.
  rewrite Hm. cbn. rewrite Hs. cbn.
  destruct (res <? 0) eqn:Hlt; [apply Z.ltb_lt in Hlt; lia|].
  cbn. rewrite Ha. crunch; reflexivity.
Qed.

(** X4: the first pair sets the graph pointer.  With both frames present,
    no graph yet, a [method] of the enumeration, a graph description that
    could be formatted and an allocation that succeeded, the instance holds
    the new graph after [aggregate_frames], also when libav then failed to
    parse or configure it and when the pair's metric was lost. *)
Lemma first_pair_sets_filter_graph w outbuf ref cmp m res args e1 g e2 :
  prepared_frame (sinkpad1 w) = Some ref ->
  prepared_frame (sinkpad2 w) = Some cmp ->
  filter_graph (self w) = None ->
  g_enum_get_value enum_values (method (self w)) = Some m ->
  g_vasprintf filter_graph_description
    [ ArgInt (width (self w)); ArgInt (height (self w)); ArgPixFmt (pixfmt (self w));
      ArgInt (width (self w)); ArgInt (height (self w)); ArgPixFmt (pixfmt (self w));
      ArgStr (Some (value_nick m)); ArgStr (stats_file (self w)) ] (ext w) =
    ((res, args), e1) ->
  0 <= res ->
  avfilter_graph_alloc e1 = (Some g, e2) ->
  filter_graph (self (snd (gst_ffmpegvidcmp_aggregate_frames outbuf w))) = Some g.
Proof.
  intros H1 H2 Hnone Hm Hs Hres Ha.
  rewrite aggregate_frames_self, H1, H2.
  pose proof (init_filter_graph_allocates w m res args e1 g e2 Hm Hs Hres Ha) as Hinit.
  unfold process_filter_graph, bind, get_self. rewrite Hnone.
  destruct (init_filter_graph w) as [r w1]. cbn [snd] in Hinit.
  destruct (r <? 0); cbn [snd]; [exact Hinit|].
  now rewrite run_filter_graph_self.
Qed.

(** Once set, the pointer survives everything but [reset]. *)
Lemma filter_graph_kept_by_op w o g :
  filter_graph (self w) = Some g ->
  o <> OpReset ->
  filter_graph (self (run_op w o)) = Some g.
Proof.
  intros Hg Hne. destruct o as [ev|id v|ref cmp outbuf|]; [| | |contradiction];
    cbn [run_op].
  - unfold gst_ffmpegvidcmp_sink_event, bind, call.
    destruct ev as [caps|ty].
    + destruct (gst_video_info_from_caps caps) as [vinfo|] eqn:Hc.
      * rewrite (setcaps_parsed w caps vinfo Hc). cbn zeta.
        destruct (decide _); cbn; [exact Hg|].
        destruct (parent_sink_event _ _); exact Hg.
      * unfold gst_ffmpegvidcmp_setcaps. rewrite Hc. cbn.
        exact Hg.
    + cbn. destruct (parent_sink_event _ _); exact Hg.
  - unfold gst_ffmpegvidcmp_set_property, bind, get_self. cbn. rewrite Hg.
    repeat (destruct (decide _)); exact Hg.
  - unfold bind, prepare_frames.
    rewrite aggregate_frames_self. cbn.
    destruct ref; [destruct cmp|]; try exact Hg.
    rewrite Hg, run_filter_graph_self. exact Hg.
Qed.

Lemma filter_graph_kept_by_run ops : forall w g,
  filter_graph (self w) = Some g ->
  Forall (fun o => o <> OpReset) ops ->
  filter_graph (self (run ops w)) = Some g.
Proof.
  induction ops as [|o ops IH]; intros w g Hg Hall; [exact Hg|].
  inversion Hall as [|? ? Ho Hops]; subst. cbn.
  apply IH; [|exact Hops]. now apply filter_graph_kept_by_op.
Qed.

(** ** The two properties *)

(** C3, as amended: while the instance holds a filter graph, setting
    [stats-file] or [method] is refused: a warning is logged and nothing else
    of the state changes.  (A processed pair normally leaves a graph behind;
    it does not when the graph could not be allocated, and a reset drops
    it.) *)
Theorem set_property_refused_while_graph_exists w prop_id v g :
  filter_graph (self w) = Some g ->
  prop_id = PROP_STATS_FILE \/ prop_id = PROP_VIDCMP_METHOD ->
  exists msg,
    snd (gst_ffmpegvidcmp_set_property prop_id v w) =
    set_log (log w ++ [(GST_LEVEL_WARNING, msg)]) w.
Proof.
  intros Hg [-> | ->]; unfold gst_ffmpegvidcmp_set_property, bind, get_self; cbn;
    rewrite Hg; eexists; reflexivity.
Qed.

(** What [reset] leaves of the instance: the two properties. *)
Lemma reset_self u :
  self (snd (gst_ffmpegvidcmp_reset u)) =
    {| width := -1; height := -1; fps_num := 0; fps_denom := 1;
       filter_graph := None; in1_ctx := None; in2_ctx := None; out_ctx := None;
       pixfmt := AV_PIX_FMT_NONE; method := method (self u);
       stats_file := stats_file (self u) |}.
Proof.
  unfold gst_ffmpegvidcmp_reset, bind, get_self, modify_self, call, ret; cbn.
  destruct (filter_graph (self u)) eqn:E; cbn;
    unfold with_filter_graph, with_ctxs, with_pixfmt, with_geometry; cbn;
    rewrite ?E; reflexivity.
Qed.

Lemma set_property_stores u v :
  filter_graph (self u) = None ->
  self (snd (gst_ffmpegvidcmp_set_property PROP_STATS_FILE v u)) =
    with_stats_file (g_value_get_string v) (self u) /\
  self (snd (gst_ffmpegvidcmp_set_property PROP_VIDCMP_METHOD v u)) =
    with_method (g_value_get_enum v) (self u).
Proof.
  intros Hg. unfold gst_ffmpegvidcmp_set_property, bind, get_self; cbn.
  rewrite Hg. split; reflexivity.
Qed.

(** C9: a write to [stats-file] or [method] stores the new value when the
    filter graph pointer is NULL and leaves the instance as it is when a
    graph exists; [reset] clears the pointer, so after a reset both writes
    store their value again. *)
Theorem write_once_guard_follows_filter_graph w v :
  let ws := snd (gst_ffmpegvidcmp_set_property PROP_STATS_FILE v w) in
  let wm := snd (gst_ffmpegvidcmp_set_property PROP_VIDCMP_METHOD v w) in
  let wr := snd (gst_ffmpegvidcmp_reset w) in
  match filter_graph (self w) with
  | None =>
      self ws = with_stats_file (g_value_get_string v) (self w) /\
      self wm = with_method (g_value_get_enum v) (self w)
  | Some _ => self ws = self w /\ self wm = self w
  end /\
  filter_graph (self wr) = None /\
  stats_file (self (snd (gst_ffmpegvidcmp_set_property PROP_STATS_FILE v wr))) =
    g_value_get_string v /\
  method (self (snd (gst_ffmpegvidcmp_set_property PROP_VIDCMP_METHOD v wr))) =
    g_value_get_enum v.
Proof.
  cbn zeta. split.
  - destruct (filter_graph (self w)) eqn:Hg.
    + unfold gst_ffmpegvidcmp_set_property, bind, get_self; cbn.
      rewrite Hg. split; reflexivity.
    + apply set_property_stores, Hg.
  - assert (Hr : filter_graph (self (snd (gst_ffmpegvidcmp_reset w))) = None)
      by now rewrite reset_self.
    split; [exact Hr|].
    destruct (set_property_stores _ v Hr) as [-> ->]. split; reflexivity.
Qed.

(** ** Caps *)

Lemma pixfmt_none_iff_unsupported f :
  gst_ffmpeg_videoformat_to_pixfmt f = AV_PIX_FMT_NONE <-> f ∉ GST_FFMPEGVIDCMP_FORMATS.
Proof.
  unfold GST_FFMPEGVIDCMP_FORMATS.
  destruct f; cbn; split; intros H; try discriminate; try reflexivity;
    try (exfalso; apply H; set_solver);
    try (rewrite !elem_of_cons, elem_of_nil; intuition discriminate).
Qed.

(** C6: caps whose format is one of the seventeen of the pad templates are
    accepted, and width, height, frame rate and the mapped pixel format are
    stored; caps with any other format are turned down: [setcaps] returns
    FALSE with the pixel format left at AV_PIX_FMT_NONE as after a reset, and
    the caps event is answered FALSE; caps that do not parse at all are
    turned down without a change. *)
Theorem setcaps_accepts_exactly_the_supported_formats w caps :
  let r := gst_ffmpegvidcmp_setcaps caps w in
  match gst_video_info_from_caps caps with
  | None => r = (false, w)
  | Some vinfo =>
      if decide (vi_format vinfo ∈ GST_FFMPEGVIDCMP_FORMATS) then
        fst r = true /\
        width (self (snd r)) = vi_width vinfo /\
        height (self (snd r)) = vi_height vinfo /\
        fps_num (self (snd r)) = vi_fps_n vinfo /\
        fps_denom (self (snd r)) = vi_fps_d vinfo /\
        pixfmt (self (snd r)) = gst_ffmpeg_videoformat_to_pixfmt (vi_format vinfo) /\
        pixfmt (self (snd r)) <> AV_PIX_FMT_NONE
      else
        fst r = false /\
        pixfmt (self (snd r)) = AV_PIX_FMT_NONE /\
        fst (gst_ffmpegvidcmp_sink_event (GST_EVENT_CAPS caps) w) = false
  end.
Proof.
  cbn zeta.
  destruct (gst_video_info_from_caps caps) as [vinfo|] eqn:Hc.
  - unfold gst_ffmpegvidcmp_sink_event, bind.
    rewrite (setcaps_parsed w caps vinfo Hc). cbn zeta.
    destruct (decide (vi_format vinfo ∈ GST_FFMPEGVIDCMP_FORMATS)) as [Hin|Hout].
    + destruct (decide _) as [Hn|Hn].
      * apply pixfmt_none_iff_unsupported in Hn. contradiction.
      * cbn. repeat split; try reflexivity. exact Hn.
    + apply pixfmt_none_iff_unsupported in Hout.
      destruct (decide _) as [Hn|Hn]; [|contradiction].
      cbn. repeat split; assumption.
  - unfold gst_ffmpegvidcmp_setcaps. now rewrite Hc.
Qed.

(** C7, as amended: [setcaps] has no notion of "already configured".
    Whatever state the instance is in, also with a filter graph running,
    caps that parse and map to a pixel format are accepted, and their width,
    height, frame rate and pixel format replace the stored ones; the filter
    graph, its contexts and the two properties stay as they are, and the
    caps event goes on to the parent class. *)
Theorem setcaps_overwrites_in_any_state w caps vinfo :
  gst_video_info_from_caps caps = Some vinfo ->
  gst_ffmpeg_videoformat_to_pixfmt (vi_format vinfo) <> AV_PIX_FMT_NONE ->
  let s' := {| width := vi_width vinfo; height := vi_height vinfo;
               fps_num := vi_fps_n vinfo; fps_denom := vi_fps_d vinfo;
               filter_graph := filter_graph (self w);
               in1_ctx := in1_ctx (self w); in2_ctx := in2_ctx (self w);
               out_ctx := out_ctx (self w);
               pixfmt := gst_ffmpeg_videoformat_to_pixfmt (vi_format vinfo);
               method := method (self w); stats_file := stats_file (self w) |} in
  gst_ffmpegvidcmp_setcaps caps w = (true, set_self s' w) /\
  gst_ffmpegvidcmp_sink_event (GST_EVENT_CAPS caps) w =
    call (parent_sink_event (GST_EVENT_CAPS caps)) (set_self s' w).
Proof.
  intros Hc Hp. cbn zeta.
  assert (E : gst_ffmpegvidcmp_setcaps caps w =
              (true, set_self
                 (with_pixfmt (gst_ffmpeg_videoformat_to_pixfmt (vi_format vinfo))
                    (with_geometry (vi_width vinfo) (vi_height vinfo)
                       (vi_fps_n vinfo) (vi_fps_d vinfo) (self w))) w)).
  { rewrite (setcaps_parsed w caps vinfo Hc). cbn zeta.
    destruct (decide _) as [Hn|_]; [contradiction|reflexivity]. }
  split; [exact E|].
  unfold gst_ffmpegvidcmp_sink_event, bind. rewrite E. reflexivity.
Qed.

(** [setcaps] reads nothing of the world but the instance, and does not
    touch the two properties. *)
Lemma setcaps_depends_on_self caps u u' :
  self u = self u' ->
  fst (gst_ffmpegvidcmp_setcaps caps u) = fst (gst_ffmpegvidcmp_setcaps caps u') /\
  self (snd (gst_ffmpegvidcmp_setcaps caps u)) = self (snd (gst_ffmpegvidcmp_setcaps caps u')).
Proof.
  intros H. destruct (gst_video_info_from_caps caps) as [vinfo|] eqn:Hc.
  - rewrite !(setcaps_parsed _ caps vinfo Hc). cbn zeta. rewrite H.
    destruct (decide _); split; reflexivity.
  - unfold gst_ffmpegvidcmp_setcaps. rewrite Hc. split; [reflexivity|exact H].
Qed.

Lemma setcaps_keeps_properties caps u :
  method (self (snd (gst_ffmpegvidcmp_setcaps caps u))) = method (self u) /\
  stats_file (self (snd (gst_ffmpegvidcmp_setcaps caps u))) = stats_file (self u).
Proof.
  destruct (gst_video_info_from_caps caps) as [vinfo|] eqn:Hc.
  - rewrite (setcaps_parsed _ caps vinfo Hc). cbn zeta.
    destruct (decide _); split; reflexivity.
  - unfold gst_ffmpegvidcmp_setcaps. rewrite Hc. split; reflexivity.
Qed.

(** C8: [reset] followed by [setcaps X], done a second time on the state the
    first round left, answers the same and leaves the same instance: width,
    height, frame rate, pixel format, filter graph and contexts, and the two
    properties. *)
Theorem reset_setcaps_twice_is_once w caps :
  let round := bind gst_ffmpegvidcmp_reset (fun _ => gst_ffmpegvidcmp_setcaps caps) in
  fst (round (snd (round w))) = fst (round w) /\
  self (snd (round (snd (round w)))) = self (snd (round w)).
Proof.
  cbn zeta.
  assert (Hround : forall u,
            bind gst_ffmpegvidcmp_reset (fun _ => gst_ffmpegvidcmp_setcaps caps) u =
            gst_ffmpegvidcmp_setcaps caps (snd (gst_ffmpegvidcmp_reset u))).
  { intros u. unfold bind. now destruct (gst_ffmpegvidcmp_reset u). }
  rewrite !Hround.
  apply setcaps_depends_on_self.
  rewrite !reset_self.
  destruct (setcaps_keeps_properties caps (snd (gst_ffmpegvidcmp_reset w))) as [-> ->].
  now rewrite reset_self.
Qed.


(** ** Further properties of the code *)

(** *** _fill_avpicture *)

Lemma fill_components_spec vframe n : forall picture,
  let p := foldl (fill_component vframe) picture (seq 0 n) in
  length (av_data p) = length (av_data picture) /\
  length (av_linesize p) = length (av_linesize picture) /\
  av_width p = av_width picture /\ av_height p = av_height picture /\
  av_format p = av_format picture /\
  forall i,
    av_data p !! i =
      (if decide (i < n /\ i < length (av_data picture))%nat
       then Some (GST_VIDEO_FRAME_COMP_DATA vframe i) else av_data picture !! i) /\
    av_linesize p !! i =
      (if decide (i < n /\ i < length (av_linesize picture))%nat
       then Some (GST_VIDEO_FRAME_COMP_STRIDE vframe i) else av_linesize picture !! i).
Proof.
  induction n as [|n IH]; intros picture; cbn zeta.
  - cbn. repeat split; destruct (decide _) as [[? ?]|]; try lia; reflexivity.
  - rewrite seq_S, foldl_app. cbn [foldl Nat.add].
    destruct (IH picture) as (Hd & Hl & Hw & Hh & Hf & Hi).
    set (q := foldl (fill_component vframe) picture (seq 0 n)) in *.
    unfold fill_component; cbn.
    rewrite !length_insert.
    repeat split; try assumption.
    + destruct (decide (i = n)) as [->|Hne].
      * destruct (decide (n < length (av_data picture))%nat) as [Hlt|Hge].
        -- rewrite list_lookup_insert_eq by lia.
           destruct (decide _) as [_|Hn]; [reflexivity|lia].
        -- rewrite list_insert_ge by lia. rewrite (proj1 (Hi n)).
           destruct (decide _) as [[? ?]|_]; [lia|].
           destruct (decide _) as [[? ?]|_]; [lia|reflexivity].
      * rewrite list_lookup_insert_ne by congruence. rewrite (proj1 (Hi i)).
        destruct (decide _) as [[? ?]|Hn1]; destruct (decide _) as [[? ?]|Hn2];
          try reflexivity; lia.
    + destruct (decide (i = n)) as [->|Hne].
      * destruct (decide (n < length (av_linesize picture))%nat) as [Hlt|Hge].
        -- rewrite list_lookup_insert_eq by lia.
           destruct (decide _) as [_|Hn]; [reflexivity|lia].
        -- rewrite list_insert_ge by lia. rewrite (proj2 (Hi n)).
           destruct (decide _) as [[? ?]|_]; [lia|].
           destruct (decide _) as [[? ?]|_]; [lia|reflexivity].
      * rewrite list_lookup_insert_ne by congruence. rewrite (proj2 (Hi i)).
        destruct (decide _) as [[? ?]|Hn1]; destruct (decide _) as [[? ?]|Hn2];
          try reflexivity; lia.
Qed.

(** X1: [_fill_avpicture] keeps the two arrays at their length, puts the
    data pointer and the stride of component [i] at index [i] for every
    component that has a place in the arrays, leaves every other entry as it
    was, and sets width, height and format from the frame and the
    instance. *)
Theorem fill_avpicture_entries s picture vframe i :
  let p := _fill_avpicture s picture vframe in
  length (av_data p) = length (av_data picture) /\
  length (av_linesize p) = length (av_linesize picture) /\
  av_data p !! i =
    (if decide (i < GST_VIDEO_FRAME_N_COMPONENTS vframe /\ i < length (av_data picture))%nat
     then Some (GST_VIDEO_FRAME_COMP_DATA vframe i) else av_data picture !! i) /\
  av_linesize p !! i =
    (if decide (i < GST_VIDEO_FRAME_N_COMPONENTS vframe /\
                i < length (av_linesize picture))%nat
     then Some (GST_VIDEO_FRAME_COMP_STRIDE vframe i) else av_linesize picture !! i) /\
  av_width p = GST_VIDEO_FRAME_WIDTH vframe /\
  av_height p = GST_VIDEO_FRAME_HEIGHT vframe /\
  av_format p = Some (pixfmt s).
Proof.
  cbn zeta. unfold _fill_avpicture. cbn.
  destruct (fill_components_spec vframe (GST_VIDEO_FRAME_N_COMPONENTS vframe) picture)
    as (Hd & Hl & _ & _ & _ & Hi).
  destruct (Hi i) as [Hdi Hli].
  repeat split; assumption.
Qed.

(** *** init_filter_graph and process_filter_graph *)

Ltac crunch_eq :=
  repeat (cbn;
          match goal with
          | |- context [let (_, _) := ?x in _] =>
              lazymatch x with
              | context [match _ with _ => _ end] => fail
              | _ => destruct x eqn:?
              end
          | |- context [if ?x then _ else _] =>
              lazymatch x with
              | context [match _ with _ => _ end] => fail
              | _ => destruct x eqn:?
              end
          | |- context [match ?x with _ => _ end] =>
              lazymatch x with
              | context [match _ with _ => _ end] => fail
              | _ => destruct x eqn:?
              end
          end);
  cbn.

(** X2: when [init_filter_graph] returns a non-negative result, the
    instance holds a filter graph and all three filter contexts, and the
    contexts are the graph's filters of the three names. *)
Theorem init_filter_graph_success w :
  0 <= fst (init_filter_graph w) ->
  let w' := snd (init_filter_graph w) in
  exists g i1 i2 o,
    filter_graph (self w') = Some g /\
    in1_ctx (self w') = Some i1 /\ in2_ctx (self w') = Some i2 /\
    out_ctx (self w') = Some o /\
    avfilter_graph_get_filter g "Parsed_buffer_0" (ext w') = Some i1 /\
    avfilter_graph_get_filter g "Parsed_buffer_1" (ext w') = Some i2 /\
    avfilter_graph_get_filter g "Parsed_buffersink_3" (ext w') = Some o.
Proof.
  cbn zeta.
  unfold init_filter_graph, bind, get_self, _make_str, call, ask, modify_self, ret,
    GST_INFO_OBJECT, GST_ERROR_OBJECT, gst_debug.
  crunch_eq; intros Hres;
    repeat match goal with
           | H : (_ <? 0) = true |- _ => apply Z.ltb_lt in H
           end;
    try lia;
    (do 4 eexists; repeat split; eassumption).
Qed.

(** X3: with a [method] that is neither of the two values of the
    enumeration, [init_filter_graph] returns -1 and does nothing but log the
    error: no graph is allocated and nothing outside is called. *)
Theorem init_filter_graph_unknown_method w :
  method (self w) <> GST_FFMPEGVIDCMP_METHOD_SSIM ->
  method (self w) <> GST_FFMPEGVIDCMP_METHOD_PSNR ->
  init_filter_graph w =
    (-1, set_log (log w ++ [(GST_LEVEL_ERROR, "unknown compare method")]) w).
Proof.
  unfold GST_FFMPEGVIDCMP_METHOD_SSIM, GST_FFMPEGVIDCMP_METHOD_PSNR. intros H0 H1.
  unfold init_filter_graph, bind, get_self.
  assert (E : g_enum_get_value enum_values (method (self w)) = None).
  { unfold g_enum_get_value, enum_values, find. cbn [value].
    unfold GST_FFMPEGVIDCMP_METHOD_SSIM, GST_FFMPEGVIDCMP_METHOD_PSNR.
    destruct (Z.eqb_spec 0 (method (self w))); [congruence|].
    destruct (Z.eqb_spec 1 (method (self w))); [congruence|reflexivity]. }
  rewrite E. reflexivity.
Qed.

(** X5: once the instance holds a filter graph, [process_filter_graph]
    never initialises again: it leaves the instance (graph and contexts
    included), the log and the buffers as they are, whatever libav
    answers. *)
Theorem process_filter_graph_keeps_existing_graph in1 in2 w g :
  filter_graph (self w) = Some g ->
  let w' := snd (process_filter_graph in1 in2 w) in
  self w' = self w /\ log w' = log w /\ heap w' = heap w /\
  sinkpad1 w' = sinkpad1 w /\ sinkpad2 w' = sinkpad2 w.
Proof.
  intros Hg. cbn zeta. unfold process_filter_graph, bind, get_self. rewrite Hg.
  unfold run_filter_graph, bind, get_self, call, ret.
  crunch; repeat split.
Qed.

(** X6: whenever [process_filter_graph] gets to feed the reference frame,
    because a graph existed or because [init_filter_graph] has just
    succeeded, and the first buffer source refuses the frame, that result is
    returned at once: the second frame is not fed and the sink is not asked,
    so the state is the one after the initialisation, if there was one, and
    that single call. *)
Theorem process_filter_graph_stops_at_first_refusal in1 in2 w w0 r e1 :
  (filter_graph (self w) <> None /\ w0 = w) \/
  (filter_graph (self w) = None /\ 0 <= fst (init_filter_graph w) /\
   w0 = snd (init_filter_graph w)) ->
  av_buffersrc_add_frame (in1_ctx (self w0)) in1 (heap w0) (ext w0) = (r, e1) ->
  r < 0 ->
  process_filter_graph in1 in2 w = (r, set_ext e1 w0).
Proof.
  intros Hw0 Ha Hr. apply Z.ltb_lt in Hr.
  assert (Hrun : run_filter_graph in1 in2 w0 = (r, set_ext e1 w0)).
  { unfold run_filter_graph, bind, get_self, call, ret. cbn. rewrite Ha.
    now rewrite Hr. }
  unfold process_filter_graph, bind, get_self.
  destruct Hw0 as [[Hg ->]|(Hg & Hinit & ->)].
  - destruct (filter_graph (self w)); [exact Hrun|contradiction].
  - rewrite Hg. destruct (init_filter_graph w) as [ri wi]. cbn [fst snd] in *.
    destruct (ri <? 0) eqn:Hlt; [apply Z.ltb_lt in Hlt; lia|exact Hrun].
Qed.

(** *** reset and init *)

(** X7: [reset] hands the graph it finds, and only that, to
    [avfilter_graph_free]; a second [reset] right after changes nothing at
    all, so no graph is freed twice. *)
Theorem reset_twice_changes_nothing w :
  ext (snd (gst_ffmpegvidcmp_reset w)) =
    match filter_graph (self w) with
    | Some g => avfilter_graph_free g (ext w)
    | None => ext w
    end /\
  snd (gst_ffmpegvidcmp_reset (snd (gst_ffmpegvidcmp_reset w))) =
    snd (gst_ffmpegvidcmp_reset w).
Proof.
  unfold gst_ffmpegvidcmp_reset, bind, get_self, modify_self, call, ret.
  cbn. destruct (filter_graph (self w)) eqn:E; cbn; rewrite ?E; split; reflexivity.
Qed.

(** X8: whatever the instance memory held, after [init] the element has no
    geometry (-1 x -1, 0/1), no pixel format, no filter graph and no
    contexts, and the two properties read back as their defaults, "-" and
    SSIM. *)
Theorem init_gives_defaults w :
  let w' := snd (gst_ffmpegvidcmp_init w) in
  self w' =
    {| width := -1; height := -1; fps_num := 0; fps_denom := 1;
       filter_graph := None; in1_ctx := None; in2_ctx := None; out_ctx := None;
       pixfmt := AV_PIX_FMT_NONE; method := GST_FFMPEGVIDCMP_METHOD_SSIM;
       stats_file := Some "-" |} /\
  gst_ffmpegvidcmp_get_property PROP_STATS_FILE w' =
    (Some (GValueString (Some "-")), w') /\
  gst_ffmpegvidcmp_get_property PROP_VIDCMP_METHOD w' =
    (Some (GValueEnum GST_FFMPEGVIDCMP_METHOD_SSIM), w').
Proof.
  cbn zeta.
  assert (Hs : self (snd (gst_ffmpegvidcmp_init w)) =
    {| width := -1; height := -1; fps_num := 0; fps_denom := 1;
       filter_graph := None; in1_ctx := None; in2_ctx := None; out_ctx := None;
       pixfmt := AV_PIX_FMT_NONE; method := GST_FFMPEGVIDCMP_METHOD_SSIM;
       stats_file := Some "-" |}).
  { unfold gst_ffmpegvidcmp_init, bind, modify_self.
    pose proof (reset_self w) as R. destruct (gst_ffmpegvidcmp_reset w) as [[] w1].
    cbn in *. rewrite R. reflexivity. }
  split; [exact Hs|].
  unfold gst_ffmpegvidcmp_get_property, bind, get_self, ret. cbn.
  rewrite Hs. split; reflexivity.
Qed.

(** *** Properties *)

(** X9: a property that was written reads back as written while there is
    no filter graph; with a filter graph the write is lost and the read
    gives what was stored before. *)
Theorem get_after_set_property w str m :
  let ws := snd (gst_ffmpegvidcmp_set_property PROP_STATS_FILE (GValueString str) w) in
  let wm := snd (gst_ffmpegvidcmp_set_property PROP_VIDCMP_METHOD (GValueEnum m) w) in
  match filter_graph (self w) with
  | None =>
      fst (gst_ffmpegvidcmp_get_property PROP_STATS_FILE ws) = Some (GValueString str) /\
      fst (gst_ffmpegvidcmp_get_property PROP_VIDCMP_METHOD wm) = Some (GValueEnum m)
  | Some _ =>
      fst (gst_ffmpegvidcmp_get_property PROP_STATS_FILE ws) =
        fst (gst_ffmpegvidcmp_get_property PROP_STATS_FILE w) /\
      fst (gst_ffmpegvidcmp_get_property PROP_VIDCMP_METHOD wm) =
        fst (gst_ffmpegvidcmp_get_property PROP_VIDCMP_METHOD w)
  end.
Proof.
  cbn zeta.
  unfold gst_ffmpegvidcmp_get_property, gst_ffmpegvidcmp_set_property, bind, get_self, ret.
  cbn. destruct (filter_graph (self w)); cbn; split; reflexivity.
Qed.

Lemma set_property_keeps w prop_id v :
  let w' := snd (gst_ffmpegvidcmp_set_property prop_id v w) in
  heap w' = heap w /\ filter_graph (self w') = filter_graph (self w) /\
  (filter_graph (self w) <> None -> self w' = self w).
Proof.
  cbn zeta. unfold gst_ffmpegvidcmp_set_property, bind, get_self.
  destruct (decide (prop_id = PROP_STATS_FILE)) as [->|H1];
    [|destruct (decide (prop_id = PROP_VIDCMP_METHOD)) as [->|H2]];
    destruct (filter_graph (self w)) eqn:E; cbn; repeat split; auto; congruence.
Qed.

(** X10: a property write changes at most the property it names: the
    buffers, the pads, the outside state, the geometry, the pixel format,
    the filter graph and its contexts are untouched, [stats-file] can only
    change under its own id and [method] only under its own; an id that is
    neither changes nothing but the log. *)
Theorem set_property_touches_only_its_property w prop_id v :
  let w' := snd (gst_ffmpegvidcmp_set_property prop_id v w) in
  heap w' = heap w /\ ext w' = ext w /\
  sinkpad1 w' = sinkpad1 w /\ sinkpad2 w' = sinkpad2 w /\
  (width (self w'), height (self w'), fps_num (self w'), fps_denom (self w'),
   pixfmt (self w')) =
  (width (self w), height (self w), fps_num (self w), fps_denom (self w),
   pixfmt (self w)) /\
  (filter_graph (self w'), in1_ctx (self w'), in2_ctx (self w'), out_ctx (self w')) =
  (filter_graph (self w), in1_ctx (self w), in2_ctx (self w), out_ctx (self w)) /\
  (if decide (prop_id = PROP_STATS_FILE) then True
   else stats_file (self w') = stats_file (self w)) /\
  (if decide (prop_id = PROP_VIDCMP_METHOD) then True
   else method (self w') = method (self w)).
Proof.
  cbn zeta. unfold gst_ffmpegvidcmp_set_property, bind, get_self.
  destruct (decide (prop_id = PROP_STATS_FILE)) as [->|H1];
    [|destruct (decide (prop_id = PROP_VIDCMP_METHOD)) as [->|H2]];
    destruct (filter_graph (self w)) eqn:E; cbn; rewrite ?E; repeat split; auto;
    repeat case_decide; auto; congruence.
Qed.

(** *** Caps events *)

(** X11: caps that parse but whose format has no libav counterpart are
    turned down only after the instance was written: the stored width,
    height and frame rate are already those of the rejected caps and the
    pixel format is AV_PIX_FMT_NONE; the filter graph, its contexts and the
    two properties are as before, and the error is logged. *)
Theorem setcaps_rejected_caps_overwrite_geometry w caps vinfo :
  gst_video_info_from_caps caps = Some vinfo ->
  gst_ffmpeg_videoformat_to_pixfmt (vi_format vinfo) = AV_PIX_FMT_NONE ->
  gst_ffmpegvidcmp_setcaps caps w =
    (false,
     set_log (log w ++ [(GST_LEVEL_ERROR, "failed to find suitable ffmpeg pixfmt")])
       (set_self
          {| width := vi_width vinfo; height := vi_height vinfo;
             fps_num := vi_fps_n vinfo; fps_denom := vi_fps_d vinfo;
             filter_graph := filter_graph (self w);
             in1_ctx := in1_ctx (self w); in2_ctx := in2_ctx (self w);
             out_ctx := out_ctx (self w);
             pixfmt := AV_PIX_FMT_NONE;
             method := method (self w); stats_file := stats_file (self w) |} w)).
Proof.
  intros Hc Hp. rewrite (setcaps_parsed w caps vinfo Hc). cbn zeta.
  destruct (decide _) as [_|Hn]; [|contradiction].
  unfold with_pixfmt, with_geometry. cbn. now rewrite Hp.
Qed.

Lemma setcaps_keeps w caps :
  let w' := snd (gst_ffmpegvidcmp_setcaps caps w) in
  heap w' = heap w /\ ext w' = ext w /\
  sinkpad1 w' = sinkpad1 w /\ sinkpad2 w' = sinkpad2 w /\ vagg_info w' = vagg_info w.
Proof.
  cbn zeta. destruct (gst_video_info_from_caps caps) as [vinfo|] eqn:Hc.
  - rewrite (setcaps_parsed w caps vinfo Hc). cbn zeta.
    destruct (decide _); cbn; repeat split.
  - unfold gst_ffmpegvidcmp_setcaps. rewrite Hc. cbn. repeat split.
Qed.

(** X12: a caps event that [setcaps] turns down stops at the element: the
    answer is FALSE, the parent class's handler is not called, and nothing
    outside the element has changed. *)
Theorem sink_event_rejected_caps_stop_here w caps :
  fst (gst_ffmpegvidcmp_setcaps caps w) = false ->
  gst_ffmpegvidcmp_sink_event (GST_EVENT_CAPS caps) w =
    (false, snd (gst_ffmpegvidcmp_setcaps caps w)) /\
  ext (snd (gst_ffmpegvidcmp_sink_event (GST_EVENT_CAPS caps) w)) = ext w /\
  heap (snd (gst_ffmpegvidcmp_sink_event (GST_EVENT_CAPS caps) w)) = heap w.
Proof.
  intros Hf. pose proof (setcaps_keeps w caps) as (Hh & He & _). cbn zeta in *.
  unfold gst_ffmpegvidcmp_sink_event, bind.
  destruct (gst_ffmpegvidcmp_setcaps caps w) as [ok w1]. cbn in *. subst ok. cbn.
  repeat split; assumption.
Qed.

Lemma sink_event_keeps w ev :
  let w' := snd (gst_ffmpegvidcmp_sink_event ev w) in
  heap w' = heap w /\ method (self w') = method (self w) /\
  stats_file (self w') = stats_file (self w).
Proof.
  cbn zeta. unfold gst_ffmpegvidcmp_sink_event, bind, call.
  destruct ev as [caps|ty].
  - pose proof (setcaps_keeps w caps) as (Hh & _).
    pose proof (setcaps_keeps_properties caps w) as (Hm & Hs). cbn zeta in *.
    destruct (gst_ffmpegvidcmp_setcaps caps w) as [ok w1]. cbn in *.
    destruct ok; cbn; [|repeat split; assumption].
    destruct (parent_sink_event _ _); cbn. repeat split; assumption.
  - destruct (parent_sink_event _ _); cbn. repeat split.
Qed.

(** *** aggregate_frames and the buffers *)

(** X13: unless [aggregate_frames] returns GST_FLOW_OK it has written no
    buffer at all: at end of stream and when the output buffer cannot be
    mapped the store is as it was. *)
Theorem aggregate_frames_writes_only_on_success w outbuf :
  fst (gst_ffmpegvidcmp_aggregate_frames outbuf w) <> GST_FLOW_OK ->
  heap (snd (gst_ffmpegvidcmp_aggregate_frames outbuf w)) = heap w.
Proof.
  intros Hne.
  destruct (prepared_frame (sinkpad1 w)) as [ref|] eqn:H1;
    [destruct (prepared_frame (sinkpad2 w)) as [cmp|] eqn:H2|].
  - destruct (aggregate_frames_pair w outbuf ref cmp H1 H2)
      as (res & w1 & w2 & _ & _ & _ & Hh2 & Heq).
    rewrite Heq in *. clear Heq.
    destruct (heap w !! outbuf) as [ob|]; [|exact Hh2].
    destruct (gst_video_frame_map (vagg_info w) ob GST_MAP_WRITE); [|exact Hh2].
    cbn in Hne. congruence.
  - unfold gst_ffmpegvidcmp_aggregate_frames, gst_video_aggregator_pad_get_prepared_frame,
      bind, ret. now rewrite H1, H2.
  - unfold gst_ffmpegvidcmp_aggregate_frames, gst_video_aggregator_pad_get_prepared_frame,
      bind, ret. rewrite H1. now destruct (prepared_frame (sinkpad2 w)).
Qed.

Lemma aggregate_frames_heap w outbuf a :
  let w' := snd (gst_ffmpegvidcmp_aggregate_frames outbuf w) in
  (a <> outbuf -> heap w' !! a = heap w !! a) /\
  pts <$> heap w' !! a = pts <$> heap w !! a /\
  duration <$> heap w' !! a = duration <$> heap w !! a.
Proof.
  cbn zeta.
  destruct (prepared_frame (sinkpad1 w)) as [ref|] eqn:H1;
    [destruct (prepared_frame (sinkpad2 w)) as [cmp|] eqn:H2|].
  - destruct (aggregate_frames_pair w outbuf ref cmp H1 H2)
      as (res & w1 & w2 & _ & _ & _ & Hh2 & ->).
    destruct (heap w !! outbuf) as [ob|] eqn:Hob; [|cbn; now rewrite Hh2].
    destruct (gst_video_frame_map (vagg_info w) ob GST_MAP_WRITE);
      [|cbn; now rewrite Hh2].
    cbn [snd]. unfold gst_video_frame_copy; cbn [vf_buffer]. rewrite Hh2, Hob.
    destruct (heap w !! vf_buffer ref) as [rb|]; cbn; [|now rewrite Hh2].
    destruct (decide (a = outbuf)) as [->|Hne].
    + rewrite lookup_insert_eq, Hob. cbn. repeat split. congruence.
    + rewrite lookup_insert_ne by congruence. repeat split.
  - unfold gst_ffmpegvidcmp_aggregate_frames, gst_video_aggregator_pad_get_prepared_frame,
      bind, ret. rewrite H1, H2. cbn. repeat split.
  - unfold gst_ffmpegvidcmp_aggregate_frames, gst_video_aggregator_pad_get_prepared_frame,
      bind, ret. rewrite H1. destruct (prepared_frame (sinkpad2 w)); cbn; repeat split.
Qed.

Lemma reset_keeps_heap w : heap (snd (gst_ffmpegvidcmp_reset w)) = heap w.
Proof.
  unfold gst_ffmpegvidcmp_reset, bind, get_self, modify_self, call, ret.
  cbn. destruct (filter_graph (self w)); reflexivity.
Qed.

(** The host only changes the prepared frames of the pads. *)
Lemma prepare_then_aggregate w ref cmp outbuf :
  snd (bind (prepare_frames ref cmp)
         (fun _ => gst_ffmpegvidcmp_aggregate_frames outbuf) w) =
  snd (gst_ffmpegvidcmp_aggregate_frames outbuf (snd (prepare_frames ref cmp w))).
Proof. reflexivity. Qed.

Lemma run_op_heap w o a :
  (forall ref cmp, o <> OpAggregate ref cmp a) ->
  heap (run_op w o) !! a = heap w !! a.
Proof.
  intros Hno. destruct o as [ev|id v|ref cmp outbuf|]; cbn [run_op].
  - now rewrite (proj1 (sink_event_keeps w ev)).
  - now rewrite (proj1 (set_property_keeps w id v)).
  - rewrite prepare_then_aggregate.
    apply (aggregate_frames_heap (snd (prepare_frames ref cmp w)) outbuf a).
    intros ->. now apply (Hno ref cmp).
  - now rewrite reset_keeps_heap.
Qed.

Lemma run_op_timestamps w o a :
  pts <$> heap (run_op w o) !! a = pts <$> heap w !! a /\
  duration <$> heap (run_op w o) !! a = duration <$> heap w !! a.
Proof.
  destruct o as [ev|id v|ref cmp outbuf|]; cbn [run_op].
  - now rewrite (proj1 (sink_event_keeps w ev)).
  - now rewrite (proj1 (set_property_keeps w id v)).
  - rewrite prepare_then_aggregate.
    apply (aggregate_frames_heap (snd (prepare_frames ref cmp w)) outbuf a).
  - now rewrite reset_keeps_heap.
Qed.

(** X14: over any run of the element, a buffer that was never handed in as
    the output buffer of an [aggregate_frames] call is exactly as it was:
    input frames are only read. *)
Theorem run_writes_only_output_buffers ops : forall w a,
  (forall ref cmp, ~ In (OpAggregate ref cmp a) ops) ->
  heap (run ops w) !! a = heap w !! a.
Proof.
  induction ops as [|o ops IH]; intros w a Hno; [reflexivity|].
  change (run (o :: ops) w) with (run ops (run_op w o)). rewrite IH.
  - apply run_op_heap. intros ref cmp ->. apply (Hno ref cmp). now left.
  - intros ref cmp Hin. apply (Hno ref cmp). now right.
Qed.

(** X15: no run of the element changes the timestamp or the duration of
    any buffer, output buffers included, and no buffer appears or
    disappears. *)
Theorem run_keeps_timestamps ops : forall w a,
  pts <$> heap (run ops w) !! a = pts <$> heap w !! a /\
  duration <$> heap (run ops w) !! a = duration <$> heap w !! a.
Proof.
  induction ops as [|o ops IH]; intros w a; [split; reflexivity|].
  change (run (o :: ops) w) with (run ops (run_op w o)). destruct (IH (run_op w o) a) as [-> ->]. apply run_op_timestamps.
Qed.

(** *** What a run keeps *)

Lemma aggregate_frames_same_config w outbuf :
  same_config (self w) (self (snd (gst_ffmpegvidcmp_aggregate_frames outbuf w))).
Proof.
  rewrite aggregate_frames_self.
  destruct (prepared_frame (sinkpad1 w)) as [ref|];
    [destruct (prepared_frame (sinkpad2 w)) as [cmp|]|];
    try (unfold same_config; repeat split; reflexivity).
  apply process_filter_graph_Preserving.
Qed.

Lemma run_op_keeps_properties w o :
  (forall id v, o <> OpSetProperty id v) ->
  method (self (run_op w o)) = method (self w) /\
  stats_file (self (run_op w o)) = stats_file (self w).
Proof.
  intros Hno. destruct o as [ev|id v|ref cmp outbuf|]; cbn [run_op].
  - apply (sink_event_keeps w ev).
  - now destruct (Hno id v).
  - rewrite prepare_then_aggregate.
    apply (aggregate_frames_same_config (snd (prepare_frames ref cmp w)) outbuf).
  - rewrite reset_self. split; reflexivity.
Qed.

(** X16: [method] and [stats-file] change through a property write and
    through nothing else: caps events, pairs, ends of stream and resets
    leave both as they are (a reset does not bring the defaults back). *)
Theorem run_without_property_writes ops : forall w,
  Forall (fun o => forall id v, o <> OpSetProperty id v) ops ->
  method (self (run ops w)) = method (self w) /\
  stats_file (self (run ops w)) = stats_file (self w).
Proof.
  induction ops as [|o ops IH]; intros w Hall; [split; reflexivity|].
  inversion Hall as [|? ? Ho Hops]; subst.
  change (run (o :: ops) w) with (run ops (run_op w o)).
  destruct (IH (run_op w o) Hops) as [-> ->].
  now apply run_op_keeps_properties.
Qed.

(** X17: from the moment the instance holds a filter graph and for as long
    as there is no reset, the graph, [method] and [stats-file] are frozen:
    whatever caps events, pairs and property writes follow, all three are
    the same at the end. *)
Theorem run_with_graph_freezes_properties ops : forall w g,
  filter_graph (self w) = Some g ->
  Forall (fun o => o <> OpReset) ops ->
  filter_graph (self (run ops w)) = Some g /\
  method (self (run ops w)) = method (self w) /\
  stats_file (self (run ops w)) = stats_file (self w).
Proof.
  induction ops as [|o ops IH]; intros w g Hg Hall; [repeat split; exact Hg|].
  inversion Hall as [|? ? Ho Hops]; subst.
  change (run (o :: ops) w) with (run ops (run_op w o)).
  pose proof (filter_graph_kept_by_op w o g Hg Ho) as Hg'.
  destruct (IH (run_op w o) g Hg' Hops) as (-> & -> & ->).
  split; [reflexivity|].
  destruct o as [ev|id v|ref cmp outbuf|]; [| | |contradiction].
  - apply run_op_keeps_properties. intros; discriminate.
  - cbn [run_op].
    rewrite (proj2 (proj2 (set_property_keeps w id v))) by congruence.
    split; reflexivity.
  - apply run_op_keeps_properties. intros; discriminate.
Qed.

(** X18: however many times [aggregate_frames] is called (pairs, ends of
    stream, failed metrics, unmappable buffers), the stored width, height,
    frame rate and pixel format and the two properties stay as they were. *)
Theorem run_of_aggregates_keeps_config ops : forall w,
  Forall (fun o => exists ref cmp outbuf, o = OpAggregate ref cmp outbuf) ops ->
  same_config (self w) (self (run ops w)).
Proof.
  induction ops as [|o ops IH]; intros w Hall.
  - unfold same_config. repeat split.
  - inversion Hall as [|? ? (ref & cmp & outbuf & ->) Hops]; subst.
    change (run (OpAggregate ref cmp outbuf :: ops) w)
      with (run ops (run_op w (OpAggregate ref cmp outbuf))).
    specialize (IH (run_op w (OpAggregate ref cmp outbuf)) Hops).
    assert (H1 : same_config (self w) (self (run_op w (OpAggregate ref cmp outbuf)))).
    { cbn [run_op]. rewrite prepare_then_aggregate.
      apply (aggregate_frames_same_config (snd (prepare_frames ref cmp w)) outbuf). }
    unfold same_config in *.
    destruct H1 as (?&?&?&?&?&?&?), IH as (?&?&?&?&?&?&?).
    repeat split; congruence.
Qed.

End Properties.

(** ** The child proxy interface *)

(** X19: as long as the element's pad counter is the length of its pad
    list, [get_child_by_index] finds a child exactly for the indices below
    [get_children_count].  A child that is found is the pad at that place of
    the list and has gained one reference, no other object's count has
    changed; when none is found nothing has changed. *)
Theorem child_proxy_children pw index :
  numsinkpads (element pw) = length (sinkpads (element pw)) ->
  let r := gst_ffmpegvidcmp_child_proxy_get_child_by_index index pw in
  (is_Some (fst r) <->
   (index < gst_ffmpegvidcmp_child_proxy_get_children_count pw)%nat) /\
  match fst r with
  | Some obj =>
      sinkpads (element pw) !! index = Some obj /\
      element (snd r) = element pw /\
      refcount (snd r) !! obj = Z.succ <$> refcount pw !! obj /\
      forall o, o <> obj -> refcount (snd r) !! o = refcount pw !! o
  | None => snd r = pw
  end.
Proof.
  intros Hn. cbn zeta.
  unfold gst_ffmpegvidcmp_child_proxy_get_child_by_index,
    gst_ffmpegvidcmp_child_proxy_get_children_count, g_list_nth_data.
  rewrite Hn. split.
  - destruct (sinkpads (element pw) !! index) as [obj|] eqn:E; cbn.
    + apply lookup_lt_Some in E. split; [intros _; exact E|eauto].
    + apply lookup_ge_None in E. split; [intros [? ?]; discriminate|lia].
  - destruct (sinkpads (element pw) !! index) as [obj|] eqn:E; cbn; [|reflexivity].
    repeat split.
    + apply lookup_alter_eq.
    + intros o Hne. now apply lookup_alter_ne.
Qed.

(** ** The element at work on concrete streams *)

Ltac split_all := repeat match goal with |- _ /\ _ => split end.

Example pair_goes_through :
  @gst_ffmpegvidcmp_aggregate_frames (sim all_well) 3%nat (pair_ready all_well) =
    (GST_FLOW_OK, after_one_pair all_well) /\
  filter_graph (self (after_one_pair all_well)) = Some 1%nat /\
  log (after_one_pair all_well) =
    [ (GST_LEVEL_INFO, "    method : ssim"); (GST_LEVEL_INFO, "stats-file : -") ].
Proof. split_all; vm_compute; reflexivity. Qed.

Example unlisted_format_is_turned_down :
  @gst_ffmpegvidcmp_setcaps (sim all_well) info_rgb24 (@new_element (sim all_well) store tt) =
    (false,
     @set_log (sim all_well)
       [ (GST_LEVEL_ERROR, "failed to find suitable ffmpeg pixfmt") ]
       (@set_self (sim all_well)
          {| width := 2; height := 2; fps_num := 25; fps_denom := 1;
             filter_graph := None; in1_ctx := None; in2_ctx := None; out_ctx := None;
             pixfmt := AV_PIX_FMT_NONE; method := 0; stats_file := Some "-" |}
          (@new_element (sim all_well) store tt))).
Proof. vm_compute. reflexivity. Qed.

Example fill_avpicture_of_reference :
  _fill_avpicture (self (pair_ready all_well)) AVFrame_zero ref_frame =
    {| av_data :=
         [ Some {| ptr_buffer := 1; ptr_plane := 0; ptr_offset := 0 |};
           Some {| ptr_buffer := 1; ptr_plane := 1; ptr_offset := 0 |};
           Some {| ptr_buffer := 1; ptr_plane := 2; ptr_offset := 0 |};
           None; None; None; None; None ];
       av_linesize := [2; 1; 1; 0; 0; 0; 0; 0];
       av_width := 2; av_height := 2; av_format := Some AV_PIX_FMT_YUV420P |}.
Proof. vm_compute. reflexivity. Qed.

(** C1, witness: the pair of the two 2x2 streams, written to buffer 3. *)
Lemma aggregate_frames_copies_reference_planes_witness :
  exists ob,
    heap (pair_ready all_well) !! 3%nat = Some ob /\
    heap (after_one_pair all_well) !! 3%nat =
      Some {| pts := pts ob; duration := duration ob; planes := planes ref_buffer |} /\
    planes <$> heap (after_one_pair all_well) !! 1%nat = Some (planes ref_buffer) /\
    (3%nat <> 1%nat -> heap (after_one_pair all_well) !! 1%nat = Some ref_buffer) /\
    (forall a, a <> 3%nat ->
       heap (after_one_pair all_well) !! a = heap (pair_ready all_well) !! a).
Proof.
  apply (@aggregate_frames_copies_reference_planes (sim all_well)
           (pair_ready all_well) 3%nat ref_frame cmp_frame ref_buffer
           (after_one_pair all_well)).
  - reflexivity.
  - reflexivity.
  - vm_compute; reflexivity.
  - vm_compute; reflexivity.
Defined.

(** C1, counterexample: the pair completes and the output buffer holds the
    reference's pixels, but with the timestamp 0 and the duration 20 it was
    handed in with, not the reference's 40 and 40: the emitted buffer is not
    the reference buffer. *)
Lemma forwarded_frame_keeps_output_timestamp :
  let w := pair_ready all_well in
  let r := @gst_ffmpegvidcmp_aggregate_frames (sim all_well) 3%nat w in
  fst r = GST_FLOW_OK /\
  heap w !! 1%nat = Some ref_buffer /\
  heap (snd r) !! 3%nat <> Some ref_buffer /\
  exists ob,
    heap (snd r) !! 3%nat = Some ob /\
    planes ob = planes ref_buffer /\
    pts ob = 0 /\ pts ref_buffer = 40 /\
    duration ob = 20 /\ duration ref_buffer = 40.
Proof.
  cbn zeta. split; [vm_compute; reflexivity|]. split; [vm_compute; reflexivity|].
  split.
  - vm_compute. intros H. discriminate H.
  - eexists. split; [vm_compute; reflexivity|]. split_all; vm_compute; reflexivity.
Qed.

(** C2, witness: the same pair with a filter graph whose sink returns -1. *)
Lemma metric_failure_still_forwards_witness :
  let w := pair_ready metric_fails in
  let w1 := snd (@process_filter_graph (sim metric_fails)
                   (_fill_avpicture (self w) AVFrame_zero ref_frame)
                   (_fill_avpicture (self w) AVFrame_zero cmp_frame) w) in
  let r := @gst_ffmpegvidcmp_aggregate_frames (sim metric_fails) 3%nat w in
  log (snd r) = log w1 ++ [(GST_LEVEL_WARNING, "Could not process filter graph")] /\
  self (snd r) = self w1 /\ ext (snd r) = ext w1 /\
  match heap w !! 3%nat with
  | Some ob =>
      match @gst_video_frame_map (sim metric_fails) (vagg_info w) ob GST_MAP_WRITE with
      | Some _ =>
          fst r = GST_FLOW_OK /\
          heap (snd r) = <[3%nat := with_planes (planes ref_buffer) ob]> (heap w)
      | None => fst r = GST_FLOW_ERROR /\ heap (snd r) = heap w
      end
  | None => fst r = GST_FLOW_ERROR /\ heap (snd r) = heap w
  end.
Proof.
  apply (@metric_failure_still_forwards (sim metric_fails)
           (pair_ready metric_fails) 3%nat ref_frame cmp_frame ref_buffer (-1)
           (snd (@process_filter_graph (sim metric_fails)
                   (_fill_avpicture (self (pair_ready metric_fails)) AVFrame_zero ref_frame)
                   (_fill_avpicture (self (pair_ready metric_fails)) AVFrame_zero cmp_frame)
                   (pair_ready metric_fails)))).
  - reflexivity.
  - reflexivity.
  - vm_compute; reflexivity.
  - vm_compute; reflexivity.
  - lia.
Defined.

(** C2, counterexample: both frames are present and the metric fails.
    (a) libav cannot parse the graph description: the call returns
    GST_FLOW_OK and the reference is copied, but what is logged is not only
    a warning: [init_filter_graph] has logged an error before it.
    (b) The filter graph's sink fails and the output buffer cannot be mapped
    for writing: the call returns GST_FLOW_ERROR and the reference has not
    been copied. *)
Lemma metric_failure_logs_an_error_too :
  (let w := pair_ready_parse_fails in
   let r := @gst_ffmpegvidcmp_aggregate_frames sim_parse_fails 3%nat w in
   prepared_frame (sinkpad1 w) = Some ref_frame /\
   prepared_frame (sinkpad2 w) = Some cmp_frame /\
   fst (@process_filter_graph sim_parse_fails
          (_fill_avpicture (self w) AVFrame_zero ref_frame)
          (_fill_avpicture (self w) AVFrame_zero cmp_frame) w) = -22 /\
   fst r = GST_FLOW_OK /\
   heap (snd r) !! 3%nat = Some (with_planes (planes ref_buffer) out_buffer) /\
   log w = [] /\
   log (snd r) =
     [ (GST_LEVEL_INFO, "    method : ssim");
       (GST_LEVEL_INFO, "stats-file : -");
       (GST_LEVEL_ERROR, "failed to parse filter graph");
       (GST_LEVEL_WARNING, "Could not process filter graph") ]) /\
  (let w := pair_ready metric_and_map_fail in
   let r := @gst_ffmpegvidcmp_aggregate_frames (sim metric_and_map_fail) 3%nat w in
   prepared_frame (sinkpad1 w) = Some ref_frame /\
   prepared_frame (sinkpad2 w) = Some cmp_frame /\
   fst (@process_filter_graph (sim metric_and_map_fail)
          (_fill_avpicture (self w) AVFrame_zero ref_frame)
          (_fill_avpicture (self w) AVFrame_zero cmp_frame) w) = -1 /\
   fst r = GST_FLOW_ERROR /\
   heap (snd r) !! 3%nat = Some out_buffer /\
   planes out_buffer <> planes ref_buffer).
Proof.
  cbn zeta. split_all; try (vm_compute; reflexivity); vm_compute; discriminate.
Qed.

(** C5, counterexample: the first pad has its frame, the second has none and
    has not signalled end-of-stream, nor has the first.  The call answers
    GST_FLOW_EOS, which ends the stream, and not the aggregator's "need
    data". *)
Lemma starved_input_ends_the_stream :
  let w := starved all_well in
  prepared_frame (sinkpad1 w) = Some ref_frame /\
  prepared_frame (sinkpad2 w) = None /\
  pad_eos (sinkpad1 w) = false /\
  pad_eos (sinkpad2 w) = false /\
  fst (@gst_ffmpegvidcmp_aggregate_frames (sim all_well) 3%nat w) = GST_FLOW_EOS /\
  fst (@gst_ffmpegvidcmp_aggregate_frames (sim all_well) 3%nat w)
    <> GST_AGGREGATOR_FLOW_NEED_DATA.
Proof.
  cbn zeta. split_all; try (vm_compute; reflexivity); vm_compute; discriminate.
Qed.

(** C3, witness: after the pair the instance holds graph 1. *)
Lemma set_property_refused_while_graph_exists_witness :
  exists msg,
    snd (@gst_ffmpegvidcmp_set_property (sim all_well) PROP_VIDCMP_METHOD
           (GValueEnum GST_FFMPEGVIDCMP_METHOD_PSNR) (after_one_pair all_well)) =
    @set_log (sim all_well)
      (log (after_one_pair all_well) ++ [(GST_LEVEL_WARNING, msg)]) (after_one_pair all_well).
Proof.
  apply (@set_property_refused_while_graph_exists (sim all_well)
           (after_one_pair all_well) PROP_VIDCMP_METHOD
           (GValueEnum GST_FFMPEGVIDCMP_METHOD_PSNR) 1%nat).
  - vm_compute; reflexivity.
  - right; reflexivity.
Defined.

(** C3, counterexample: the element has processed a pair and still takes a
    new [method] and a new [stats-file] without a warning, (a) after a reset
    and (b) when the filter graph could not be allocated for that pair. *)
Lemma set_property_accepted_after_a_pair :
  (let w := @run (sim all_well) (one_pair_then_reset all_well) (configured_element all_well) in
   processed_a_pair (one_pair_then_reset all_well) = true /\
   method (self w) = GST_FFMPEGVIDCMP_METHOD_SSIM /\
   stats_file (self w) = Some "-" /\
   @gst_ffmpegvidcmp_set_property (sim all_well) PROP_VIDCMP_METHOD
       (GValueEnum GST_FFMPEGVIDCMP_METHOD_PSNR) w =
     (tt, @set_self (sim all_well) (with_method GST_FFMPEGVIDCMP_METHOD_PSNR (self w)) w) /\
   @gst_ffmpegvidcmp_set_property (sim all_well) PROP_STATS_FILE
       (GValueString (Some "stats.log")) w =
     (tt, @set_self (sim all_well) (with_stats_file (Some "stats.log") (self w)) w)) /\
  (let w := after_one_pair alloc_fails in
   processed_a_pair (one_pair alloc_fails) = true /\
   method (self w) = GST_FFMPEGVIDCMP_METHOD_SSIM /\
   stats_file (self w) = Some "-" /\
   @gst_ffmpegvidcmp_set_property (sim alloc_fails) PROP_VIDCMP_METHOD
       (GValueEnum GST_FFMPEGVIDCMP_METHOD_PSNR) w =
     (tt, @set_self (sim alloc_fails) (with_method GST_FFMPEGVIDCMP_METHOD_PSNR (self w)) w) /\
   @gst_ffmpegvidcmp_set_property (sim alloc_fails) PROP_STATS_FILE
       (GValueString (Some "stats.log")) w =
     (tt, @set_self (sim alloc_fails) (with_stats_file (Some "stats.log") (self w)) w)).
Proof.
  cbn zeta. split_all; vm_compute; reflexivity.
Qed.

(** C7, witness: new caps on the element that has a pair behind it. *)
Lemma setcaps_overwrites_in_any_state_witness :
  let s' := {| width := 4; height := 2; fps_num := 25; fps_denom := 1;
               filter_graph := Some 1%nat;
               in1_ctx := Some 10%nat; in2_ctx := Some 11%nat; out_ctx := Some 13%nat;
               pixfmt := AV_PIX_FMT_YUV420P;
               method := GST_FFMPEGVIDCMP_METHOD_SSIM; stats_file := Some "-" |} in
  @gst_ffmpegvidcmp_setcaps (sim all_well) info_4x2 (after_one_pair all_well) =
    (true, @set_self (sim all_well) s' (after_one_pair all_well)) /\
  @gst_ffmpegvidcmp_sink_event (sim all_well) (GST_EVENT_CAPS info_4x2)
      (after_one_pair all_well) =
    @call (sim all_well) _ (@parent_sink_event (sim all_well) (GST_EVENT_CAPS info_4x2))
      (@set_self (sim all_well) s' (after_one_pair all_well)).
Proof.
  apply (@setcaps_overwrites_in_any_state (sim all_well)
           (after_one_pair all_well) info_4x2 info_4x2).
  - reflexivity.
  - cbn. discriminate.
Defined.

(** C7, counterexample: the element is configured for 2x2, has processed a
    pair and holds a filter graph; a second caps notification, for 4x2, is
    not refused: [setcaps] returns TRUE, the event goes on to the parent
    class, and the stored width is 4. *)
Lemma setcaps_accepted_while_running :
  let w := after_one_pair all_well in
  processed_a_pair (one_pair all_well) = true /\
  filter_graph (self w) = Some 1%nat /\
  (width (self w), height (self w)) = (2, 2) /\
  fst (@gst_ffmpegvidcmp_setcaps (sim all_well) info_4x2 w) = true /\
  fst (@gst_ffmpegvidcmp_sink_event (sim all_well) (GST_EVENT_CAPS info_4x2) w) = true /\
  (width (self (snd (@gst_ffmpegvidcmp_setcaps (sim all_well) info_4x2 w))),
   height (self (snd (@gst_ffmpegvidcmp_setcaps (sim all_well) info_4x2 w)))) = (4, 2).
Proof.
  cbn zeta. split_all; vm_compute; reflexivity.
Qed.

(** ** Further properties on the concrete streams *)

(** X2, at the configured element: the graph comes up. *)
Lemma init_filter_graph_success_witness :
  exists g i1 i2 o,
    filter_graph (self (snd (@init_filter_graph (sim all_well) (configured_element all_well))))
      = Some g /\
    in1_ctx (self (snd (@init_filter_graph (sim all_well) (configured_element all_well))))
      = Some i1 /\
    in2_ctx (self (snd (@init_filter_graph (sim all_well) (configured_element all_well))))
      = Some i2 /\
    out_ctx (self (snd (@init_filter_graph (sim all_well) (configured_element all_well))))
      = Some o /\
    @avfilter_graph_get_filter (sim all_well) g "Parsed_buffer_0"
      (ext (snd (@init_filter_graph (sim all_well) (configured_element all_well)))) = Some i1 /\
    @avfilter_graph_get_filter (sim all_well) g "Parsed_buffer_1"
      (ext (snd (@init_filter_graph (sim all_well) (configured_element all_well)))) = Some i2 /\
    @avfilter_graph_get_filter (sim all_well) g "Parsed_buffersink_3"
      (ext (snd (@init_filter_graph (sim all_well) (configured_element all_well)))) = Some o.
Proof.
  apply (@init_filter_graph_success (sim all_well) (configured_element all_well)).
  vm_compute. discriminate.
Defined.

(** X3, with [method] = 7. *)
Lemma init_filter_graph_unknown_method_witness :
  @init_filter_graph (sim all_well) with_method_7 =
    (-1, @set_log (sim all_well)
           (log with_method_7 ++ [(GST_LEVEL_ERROR, "unknown compare method")])
           with_method_7).
Proof.
  apply (@init_filter_graph_unknown_method (sim all_well) with_method_7).
  - vm_compute. discriminate.
  - vm_compute. discriminate.
Defined.

(** X4, for the first pair of the two streams. *)
Lemma first_pair_sets_filter_graph_witness :
  filter_graph (self (snd (@gst_ffmpegvidcmp_aggregate_frames (sim all_well) 3%nat
                             (pair_ready all_well)))) = Some 1%nat.
Proof.
  apply (@first_pair_sets_filter_graph (sim all_well) (pair_ready all_well) 3%nat
           ref_frame cmp_frame
           {| value := GST_FFMPEGVIDCMP_METHOD_SSIM; value_name := "SSIM";
              value_nick := "ssim" |}
           (Z.of_nat (String.length filter_graph_description))
           filter_graph_description tt 1%nat tt).
  - reflexivity.
  - reflexivity.
  - reflexivity.
  - reflexivity.
  - reflexivity.
  - vm_compute. discriminate.
  - reflexivity.
Defined.

(** X5, at the element that has its graph. *)
Lemma process_filter_graph_keeps_existing_graph_witness :
  self (snd (@process_filter_graph (sim all_well) AVFrame_zero AVFrame_zero
               (after_one_pair all_well))) = self (after_one_pair all_well) /\
  log (snd (@process_filter_graph (sim all_well) AVFrame_zero AVFrame_zero
              (after_one_pair all_well))) = log (after_one_pair all_well) /\
  heap (snd (@process_filter_graph (sim all_well) AVFrame_zero AVFrame_zero
               (after_one_pair all_well))) = heap (after_one_pair all_well) /\
  sinkpad1 (snd (@process_filter_graph (sim all_well) AVFrame_zero AVFrame_zero
                   (after_one_pair all_well))) = sinkpad1 (after_one_pair all_well) /\
  sinkpad2 (snd (@process_filter_graph (sim all_well) AVFrame_zero AVFrame_zero
                   (after_one_pair all_well))) = sinkpad2 (after_one_pair all_well).
Proof.
  apply (@process_filter_graph_keeps_existing_graph (sim all_well)
           AVFrame_zero AVFrame_zero (after_one_pair all_well) 1%nat).
  vm_compute. reflexivity.
Defined.

(** X6, on the first pair, where the graph is initialised and the buffer
    source then answers -22. *)
Lemma process_filter_graph_stops_at_first_refusal_witness :
  @process_filter_graph sim_source_refuses AVFrame_zero AVFrame_zero configured_refusing =
    (-22,
     @set_ext sim_source_refuses
       (S (ext (snd (@init_filter_graph sim_source_refuses configured_refusing))))
       (snd (@init_filter_graph sim_source_refuses configured_refusing))).
Proof.
  apply (@process_filter_graph_stops_at_first_refusal sim_source_refuses
           AVFrame_zero AVFrame_zero configured_refusing
           (snd (@init_filter_graph sim_source_refuses configured_refusing))).
  - right. split; [reflexivity|]. split; [vm_compute; discriminate|reflexivity].
  - reflexivity.
  - lia.
Defined.

(** X11, with caps of a format outside the templates. *)
Lemma setcaps_rejected_caps_overwrite_geometry_witness :
  @gst_ffmpegvidcmp_setcaps (sim all_well) info_rgb24 (after_one_pair all_well) =
    (false,
     @set_log (sim all_well)
       (log (after_one_pair all_well) ++
        [(GST_LEVEL_ERROR, "failed to find suitable ffmpeg pixfmt")])
       (@set_self (sim all_well)
          {| width := vi_width info_rgb24; height := vi_height info_rgb24;
             fps_num := vi_fps_n info_rgb24; fps_denom := vi_fps_d info_rgb24;
             filter_graph := filter_graph (self (after_one_pair all_well));
             in1_ctx := in1_ctx (self (after_one_pair all_well));
             in2_ctx := in2_ctx (self (after_one_pair all_well));
             out_ctx := out_ctx (self (after_one_pair all_well));
             pixfmt := AV_PIX_FMT_NONE;
             method := method (self (after_one_pair all_well));
             stats_file := stats_file (self (after_one_pair all_well)) |}
          (after_one_pair all_well))).
Proof.
  apply (@setcaps_rejected_caps_overwrite_geometry (sim all_well)
           (after_one_pair all_well) info_rgb24 info_rgb24).
  - reflexivity.
  - reflexivity.
Defined.

(** X12, with the same caps as an event. *)
Lemma sink_event_rejected_caps_stop_here_witness :
  @gst_ffmpegvidcmp_sink_event (sim all_well) (GST_EVENT_CAPS info_rgb24)
      (configured_element all_well) =
    (false, snd (@gst_ffmpegvidcmp_setcaps (sim all_well) info_rgb24
                   (configured_element all_well))) /\
  ext (snd (@gst_ffmpegvidcmp_sink_event (sim all_well) (GST_EVENT_CAPS info_rgb24)
              (configured_element all_well))) = ext (configured_element all_well) /\
  heap (snd (@gst_ffmpegvidcmp_sink_event (sim all_well) (GST_EVENT_CAPS info_rgb24)
               (configured_element all_well))) = heap (configured_element all_well).
Proof.
  apply (@sink_event_rejected_caps_stop_here (sim all_well)
           (configured_element all_well) info_rgb24).
  vm_compute. reflexivity.
Defined.

(** X13, where the output buffer cannot be mapped. *)
Lemma aggregate_frames_writes_only_on_success_witness :
  heap (snd (@gst_ffmpegvidcmp_aggregate_frames (sim metric_and_map_fail) 3%nat
               (pair_ready metric_and_map_fail))) = heap (pair_ready metric_and_map_fail).
Proof.
  apply (@aggregate_frames_writes_only_on_success (sim metric_and_map_fail)
           (pair_ready metric_and_map_fail) 3%nat).
  vm_compute. discriminate.
Defined.

(** X14: the reference buffer at address 1 after a pair written to 3. *)
Lemma run_writes_only_output_buffers_witness :
  heap (@run (sim all_well) (one_pair all_well) (configured_element all_well)) !! 1%nat =
    heap (configured_element all_well) !! 1%nat.
Proof.
  apply (@run_writes_only_output_buffers (sim all_well) (one_pair all_well)
           (configured_element all_well) 1%nat).
  intros ref cmp [H|[]]. discriminate H.
Defined.

(** X16: caps, a pair, a reset, rejected caps and an end of stream. *)
Lemma run_without_property_writes_witness :
  method (self (@run (sim all_well) trace_without_writes (configured_element all_well))) =
    method (self (configured_element all_well)) /\
  stats_file (self (@run (sim all_well) trace_without_writes (configured_element all_well))) =
    stats_file (self (configured_element all_well)).
Proof.
  apply (@run_without_property_writes (sim all_well) trace_without_writes
           (configured_element all_well)).
  repeat constructor; intros id v H; discriminate H.
Defined.

(** X17: property writes, new caps and a pair after the first pair. *)
Lemma run_with_graph_freezes_properties_witness :
  filter_graph (self (@run (sim all_well) trace_without_reset (after_one_pair all_well))) =
    Some 1%nat /\
  method (self (@run (sim all_well) trace_without_reset (after_one_pair all_well))) =
    method (self (after_one_pair all_well)) /\
  stats_file (self (@run (sim all_well) trace_without_reset (after_one_pair all_well))) =
    stats_file (self (after_one_pair all_well)).
Proof.
  apply (@run_with_graph_freezes_properties (sim all_well) trace_without_reset
           (after_one_pair all_well) 1%nat).
  - vm_compute. reflexivity.
  - repeat constructor; intros H; discriminate H.
Defined.

(** X18: one pair. *)
Lemma run_of_aggregates_keeps_config_witness :
  @same_config (self (configured_element all_well))
    (self (@run (sim all_well) (one_pair all_well) (configured_element all_well))).
Proof.
  apply (@run_of_aggregates_keeps_config (sim all_well) (one_pair all_well)
           (configured_element all_well)).
  repeat constructor. do 3 eexists. reflexivity.
Defined.

(** X19: the second of the two pads. *)
Lemma child_proxy_children_witness :
  let r := gst_ffmpegvidcmp_child_proxy_get_child_by_index 1 two_pads in
  (is_Some (fst r) <->
   (1 < gst_ffmpegvidcmp_child_proxy_get_children_count two_pads)%nat) /\
  match fst r with
  | Some obj =>
      sinkpads (element two_pads) !! 1%nat = Some obj /\
      element (snd r) = element two_pads /\
      refcount (snd r) !! obj = Z.succ <$> refcount two_pads !! obj /\
      forall o, o <> obj -> refcount (snd r) !! o = refcount two_pads !! o
  | None => snd r = two_pads
  end.
Proof.
  apply (child_proxy_children two_pads 1%nat). reflexivity.
Defined.

Example second_pad_gains_a_reference :
  gst_ffmpegvidcmp_child_proxy_get_child_by_index 1 two_pads =
    (Some 101%nat,
     {| element := element two_pads;
        refcount := <[100%nat := 1]> (<[101%nat := 2]> ∅) |}) /\
  gst_ffmpegvidcmp_child_proxy_get_child_by_index 2 two_pads = (None, two_pads).
Proof. split; vm_compute; reflexivity. Qed.


